(** * asyncOperations: a timed model of the asynchronous utilities

    A shallow embedding of [src/examples/03-async-testing/asyncOperations.ts].

    The module runs on one event loop.  Every suspension point is either a
    timer or an awaited promise, so a run is determined by the instants of a
    virtual clock at which things happen.  A promise is denoted by its
    settlement (instant and outcome, or nothing when it never settles); the
    body of an [async] function is a state-passing computation over the
    [World] (clock, console, invocation counter, timer table) that returns,
    throws, or stays pending for ever.

    Conventions:
    - numbers used as identifiers, attempt counts and delays are integers;
    - callbacks due at the same instant run in the order in which they were
      registered, as the timer queue and the microtask queue do;
    - an operation passed in by the caller is known by what each invocation
      comes to (latency and outcome), not by its side effects;
    - what a computation started without [await] writes to the console is
      recorded when it is started, stamped with the instant of the write. *)

From Stdlib Require Import ZArith List String Bool Lia DecimalString.
From ExtLib Require Import Structures.Monad Structures.MonadExc.
Import ListNotations.
Import MonadNotation.

Local Open Scope string_scope.
Local Open Scope monad_scope.
Local Open Scope Z_scope.

(** ** Values *)

(** Instants of the virtual clock, in milliseconds. *)
Abbreviation Time := Z.

(** A JavaScript [Error] object: its [name] and its [message]. *)
Record Error := mkError { err_name : string; message : string }.

Definition new_Error (msg : string) : Error :=
  {| err_name := "Error"; message := msg |}.

Definition new_TypeError (msg : string) : Error :=
  {| err_name := "TypeError"; message := msg |}.

(** What a [throw] or a rejection carries.  The module throws [Error]
    objects, and in one place a variable that may still be [undefined]. *)
Inductive Reason :=
| RError (e : Error)
| RUndefined.

Inductive Outcome (T : Type) :=
| Fulfilled (v : T)
| Rejected (r : Reason).
Arguments Fulfilled {T} v.
Arguments Rejected {T} r.

(** A promise, denoted by its settlement; [None] never settles. *)
Definition Promise (T : Type) := option (Time * Outcome T).

(** [{ id: number; name: string; email: string }] *)
Record User := mkUser { id : Z; name : string; email : string }.

(** [String(n)] for an integer-valued number (decimal digits; exact for
    the safe integers, which is all the module ever prints). *)
Definition Number_toString (n : Z) : string :=
  NilZero.string_of_int (Z.to_int n).

(** ** The world *)

Inductive Level := LevelLog | LevelError.

Inductive LogArg :=
| AString (s : string)
| AReason (r : Reason).

(** One call of [console.log] / [console.error], stamped with the instant
    at which it is made. *)
Record LogEntry := mkLogEntry
  { level : Level; stamp : Time; args : list LogArg }.

Inductive TimerStatus := Active | Fired | Cleared.

(** A timer whose handle the code keeps, with its eventual fate. *)
Record Timer := mkTimer { due : Time; status : TimerStatus }.

Record World := mkWorld
  { now : Time;
    console : list LogEntry;
    calls : nat;
    timers : list Timer }.

Definition set_now (t : Time) (w : World) : World :=
  {| now := t; console := console w; calls := calls w; timers := timers w |}.

(** ** Computations *)

Inductive Result (S T : Type) :=
| Returned (v : T) (s : S)
| Thrown (r : Reason) (s : S)
| Pending (s : S).
Arguments Returned {S T} v s.
Arguments Thrown {S T} r s.
Arguments Pending {S T} s.

Definition M (S T : Type) := S -> Result S T.

#[export] Instance Monad_M (S : Type) : Monad (M S) :=
  {| ret := fun T (v : T) (s : S) => Returned v s;
     bind := fun T U (m : M S T) (k : T -> M S U) (s : S) =>
       match m s with
       | Returned v s' => k v s'
       | Thrown r s' => Thrown r s'
       | Pending s' => Pending s'
       end |}.

(** [throw] and [try { } catch (error) { }]. *)
#[export] Instance Exc_M (S : Type) : MonadExc Reason (M S) :=
  {| raise := fun T (r : Reason) (s : S) => Thrown r s;
     catch := fun T (body : M S T) (handler : Reason -> M S T) (s : S) =>
       match body s with
       | Returned v s' => Returned v s'
       | Thrown r s' => handler r s'
       | Pending s' => Pending s'
       end |}.

(** [try { } finally { }]: the finalizer runs on both exits of the body;
    the body's completion is kept unless the finalizer itself throws. *)
Definition try_finally {S T} (body : M S T) (finalizer : M S unit) : M S T :=
  fun s =>
    match body s with
    | Returned v s1 =>
        match finalizer s1 with
        | Returned _ s2 => Returned v s2
        | Thrown r s2 => Thrown r s2
        | Pending s2 => Pending s2
        end
    | Thrown r s1 =>
        match finalizer s1 with
        | Returned _ s2 => Thrown r s2
        | Thrown r' s2 => Thrown r' s2
        | Pending s2 => Pending s2
        end
    | Pending s1 => Pending s1
    end.

(** The body of an [async] function, or of a callback, over the world. *)
Abbreviation Async := (M World).

(** ** Timers and promises *)

(** Node.js coerces a delay outside [1 .. 2^31-1] to 1 ms. *)
Definition timer_delay (d : Z) : Z :=
  if (1 <=? d) && (d <=? 2147483647) then d else 1.

(** [callback] run from a timer that expires [delay] ms from now. *)
Definition after {T} (delay : Z) (callback : Async T) : Async T :=
  fun w => callback (set_now (now w + timer_delay delay) w).

(** Starting a computation without waiting for it: the caller gets the
    promise of its completion and goes on at the current instant.  What the
    computation does to the console is recorded with its own stamps. *)
Definition start {T} (body : Async T) : Async (Promise T) :=
  fun w =>
    match body w with
    | Returned v w' => Returned (Some (now w', Fulfilled v)) (set_now (now w) w')
    | Thrown r w' => Returned (Some (now w', Rejected r)) (set_now (now w) w')
    | Pending w' => Returned None (set_now (now w) w')
    end.

(** [setTimeout(callback, delay)].  The result stands for the run of the
    callback: when it happens and how it ends. *)
Definition setTimeout {T} (callback : Async T) (delay : Z) : Async (Promise T) :=
  start (after delay callback).

(** [new Promise((resolve, reject) => ...)] for an executor that schedules
    one callback which settles the promise as its last action: [resolve v]
    is the callback ending with [v], [reject r] the callback ending in [r]. *)
Definition new_Promise {T}
    (executor : (T -> Async T) -> (Reason -> Async T) -> Async (Promise T))
  : Async (Promise T) :=
  executor (fun v => ret v) (fun r => raise r).

(** [await p]: resume when [p] has settled (at once if it already has). *)
Definition await {T} (p : Promise T) : Async T :=
  fun w =>
    match p with
    | None => Pending w
    | Some (t, Fulfilled v) => Returned v (set_now (Z.max (now w) t) w)
    | Some (t, Rejected r) => Thrown r (set_now (Z.max (now w) t) w)
    end.

Definition console_write (l : Level) (a : list LogArg) : Async unit :=
  fun w =>
    Returned tt
      {| now := now w;
         console := (console w ++ [mkLogEntry l (now w) a])%list;
         calls := calls w;
         timers := timers w |}.

Definition console_log := console_write LevelLog.
Definition console_error := console_write LevelError.

(** [(error as Error).message]: reading a property of [undefined] throws. *)
Definition message_of (error : Reason) : Async string :=
  match error with
  | RError e => ret (message e)
  | RUndefined =>
      raise (RError (new_TypeError
        "Cannot read properties of undefined (reading 'message')"))
  end.

(** ** 1. fetchUserData *)

Definition fetchUserData (userId : Z) : Async (Promise User) :=
  new_Promise (fun resolve reject =>
    setTimeout
      (if userId =? 1 then
         resolve {| id := 1; name := "John Doe"; email := "john@example.com" |}
       else if userId =? 2 then
         resolve {| id := 2; name := "Jane Smith"; email := "jane@example.com" |}
       else
         reject (RError (new_Error "User not found")))
      100).

(** ** 2. processUserData *)

Definition processUserData (userId : Z) : Async string :=
  catch
    (p <- fetchUserData userId ;;
     user <- await p ;;
     ret ("처리된 사용자: " ++ name user ++ " (" ++ email user ++ ")"))
    (fun error =>
       msg <- message_of error ;;
       raise (RError (new_Error ("사용자 데이터 처리 실패: " ++ msg)))).

(** ** 3. processMultipleUsers *)

(** [array.push(x)] *)
Definition push {A} (array : list A) (x : A) : list A := (array ++ [x])%list.

(** The [for ... of] loop, with the array [results] threaded through. *)
Fixpoint processMultipleUsers_loop (userIds : list Z) (results : list string)
  : Async (list string) :=
  match userIds with
  | [] => ret results
  | userId :: rest =>
      results' <-
        catch
          (p <- start (processUserData userId) ;;
           processed <- await p ;;
           ret (push results processed))
          (fun error =>
             msg <- message_of error ;;
             ret (push results ("Error: " ++ msg))) ;;
      processMultipleUsers_loop rest results'
  end.

Definition processMultipleUsers (userIds : list Z) : Async (list string) :=
  processMultipleUsers_loop userIds [].

(** ** 4. processUsersParallel *)

(** [array.map(f)]: the callback runs on each element, in index order. *)
Fixpoint Array_map {A B} (f : A -> Async B) (l : list A) : Async (list B) :=
  match l with
  | [] => ret []
  | x :: rest =>
      y <- f x ;;
      ys <- Array_map f rest ;;
      ret (y :: ys)
  end.

(** The earliest rejection among the inputs (the lower index on a tie). *)
Fixpoint first_rejection {T} (ps : list (Promise T)) : option (Time * Reason) :=
  match ps with
  | [] => None
  | p :: rest =>
      match p, first_rejection rest with
      | Some (t, Rejected r), Some (t', r') =>
          if t' <? t then Some (t', r') else Some (t, r)
      | Some (t, Rejected r), None => Some (t, r)
      | _, later => later
      end
  end.

(** When every input is fulfilled: the latest of their instants (not before
    [t0]) and the values in input order. *)
Fixpoint gather {T} (t0 : Time) (ps : list (Promise T)) : option (Time * list T) :=
  match ps with
  | [] => Some (t0, [])
  | Some (t, Fulfilled v) :: rest =>
      match gather t0 rest with
      | Some (t', vs) => Some (Z.max t t', v :: vs)
      | None => None
      end
  | _ => None
  end.

(** [Promise.all(ps)]: rejected as soon as one input is; otherwise
    fulfilled, once all inputs are, with their values in input order. *)
Definition Promise_all {T} (ps : list (Promise T)) : Async (Promise (list T)) :=
  fun w =>
    Returned
      match first_rejection ps with
      | Some (t, r) => Some (Z.max (now w) t, Rejected r)
      | None =>
          match gather (now w) ps with
          | Some (t, vs) => Some (t, Fulfilled vs)
          | None => None
          end
      end
      w.

Definition processUsersParallel (userIds : list Z) : Async (list string) :=
  promises <-
    Array_map
      (fun userId =>
         start
           (catch
              (p <- start (processUserData userId) ;;
               await p)
              (fun error =>
                 msg <- message_of error ;;
                 ret ("Error: " ++ msg))))
      userIds ;;
  all <- Promise_all promises ;;
  await all.

(** ** Operations supplied by the caller *)

(** A zero-argument asynchronous operation [() => Promise<T>]: what its
    [k]-th invocation overall, made at instant [t], comes to -- settled with
    some outcome after some latency, or never settled.  [calls] counts the
    invocations, as a mock function does. *)
Definition Operation (T : Type) := nat -> Time -> option (N * Outcome T).

Definition invoke {T} (operation : Operation T) : Async (Promise T) :=
  fun w =>
    Returned
      match operation (calls w) (now w) with
      | Some (latency, o) => Some (now w + Z.of_N latency, o)
      | None => None
      end
      {| now := now w;
         console := console w;
         calls := S (calls w);
         timers := timers w |}.

(** ** Pending jobs of the event loop *)

(** A callback waiting for its instant.  Jobs run in the order of their
    instants; two jobs of the same instant run in the order in which they
    were registered. *)
Record Job (St : Type) := mkJob { at_instant : Time; run : St -> St }.
Arguments mkJob {St} at_instant run.
Arguments at_instant {St} j.
Arguments run {St} j st.

Fixpoint enqueue {St} (j : Job St) (queue : list (Job St)) : list (Job St) :=
  match queue with
  | [] => [j]
  | k :: queue' =>
      if at_instant j <? at_instant k then j :: queue
      else k :: enqueue j queue'
  end.

Definition schedule {St} (jobs : list (Job St)) : list (Job St) :=
  fold_left (fun queue j => enqueue j queue) jobs [].

Definition run_jobs {St} (jobs : list (Job St)) (st : St) : St :=
  fold_left (fun st j => run j st) (schedule jobs) st.

(** [resolve] / [reject] on a promise: only the first call has an effect. *)
Definition settle {T} (cell : Promise T) (t : Time) (o : Outcome T) : Promise T :=
  match cell with
  | None => Some (t, o)
  | Some _ => cell
  end.

(** ** 5. fetchWithTimeout *)

Record TimeoutState (T : Type) := mkTimeoutState
  { cell : Promise T; timer : TimerStatus }.
Arguments mkTimeoutState {T} cell timer.
Arguments cell {T} t.
Arguments timer {T} t.

(** [clearTimeout(timer)]: a timer that has fired stays fired. *)
Definition clearTimeout (s : TimerStatus) : TimerStatus :=
  match s with
  | Active => Cleared
  | other => other
  end.

Definition record_timer (t : Timer) : Async unit :=
  fun w =>
    Returned tt
      {| now := now w;
         console := console w;
         calls := calls w;
         timers := (timers w ++ [t])%list |}.

Definition clock : Async Time := fun w => Returned (now w) w.

Definition fetchWithTimeout {T} (operation : Operation T) (timeout : Z)
  : Async (Promise T) :=
  t0 <- clock ;;
  let deadline := t0 + timer_delay timeout in
  (* const timer = setTimeout(() => reject(new Error(...)), timeout) *)
  let timer_job :=
    mkJob deadline (fun st =>
      match timer st with
      | Active =>
          {| cell := settle (cell st) deadline
                       (Rejected (RError (new_Error "Operation timed out")));
             timer := Fired |}
      | _ => st
      end) in
  p <- invoke operation ;;
  (* .then(result => { clearTimeout(timer); resolve(result) })
     .catch(error => { clearTimeout(timer); reject(error) }) *)
  let reactions :=
    match p with
    | Some (t, o) =>
        [mkJob t (fun st =>
           {| cell := settle (cell st) t o;
              timer := clearTimeout (timer st) |})]
    | None => []
    end in
  let final :=
    run_jobs (timer_job :: reactions) {| cell := None; timer := Active |} in
  record_timer (mkTimer deadline (timer final)) ;;
  ret (cell final).

(** ** 6. fetchWithRetry *)

(** The values [lo, lo+1, ..., hi] a counting [for] loop goes through. *)
Definition Z_range (lo hi : Z) : list Z :=
  map (fun k => lo + Z.of_nat k) (seq 0 (Z.to_nat (hi - lo + 1))).

Fixpoint fetchWithRetry_loop {T} (operation : Operation T) (maxRetries : Z)
    (attempts : list Z) (lastError : Reason) : Async T :=
  match attempts with
  | [] => raise lastError
  | attempt :: rest =>
      catch
        (p <- invoke operation ;;
         await p)
        (fun error =>
           let lastError := error in
           if attempt =? maxRetries then
             msg <- message_of lastError ;;
             raise (RError (new_Error
               ("최대 재시도 횟수 초과 (" ++ Number_toString maxRetries
                  ++ "회): " ++ msg)))
           else
             p <- new_Promise (fun resolve _ =>
                    setTimeout (resolve tt) (100 * 2 ^ (attempt - 1))) ;;
             await p ;;
             fetchWithRetry_loop operation maxRetries rest lastError)
  end.

Definition fetchWithRetry {T} (operation : Operation T) (maxRetries : Z)
  : Async T :=
  fetchWithRetry_loop operation maxRetries (Z_range 1 maxRetries) RUndefined.

(** ** 7. fetchUserCallback *)

(** [callback(error, user)] takes [Error | null] and an optional record.
    The source returns nothing; the model hands back the scheduled run of
    the callback so that an enclosing [new Promise] can be settled by it. *)
Definition fetchUserCallback {R} (userId : Z)
    (callback : option Error -> option User -> Async R) : Async (Promise R) :=
  setTimeout
    (if userId =? 1 then
       callback None
         (Some {| id := 1; name := "John Doe"; email := "john@example.com" |})
     else if userId =? 2 then
       callback None
         (Some {| id := 2; name := "Jane Smith"; email := "jane@example.com" |})
     else
       callback (Some (new_Error "User not found")) None)
    50.

(** ** 8. promisifyCallback *)

(** [resolve(user!)] passes on whatever [user] holds, so the promise is
    typed by the optional record. *)
Definition promisifyCallback (userId : Z) : Async (Promise (option User)) :=
  new_Promise (fun resolve reject =>
    fetchUserCallback userId (fun error user =>
      match error with
      | Some e => reject (RError e)
      | None => resolve user
      end)).

(** ** 9. generateUserStream *)

Inductive IteratorResult (T : Type) :=
| IterValue (value : T)
| IterDone.
Arguments IterValue {T} value.
Arguments IterDone {T}.

(** The generator is suspended inside its loop; its state is the list of
    identifiers the loop has not reached yet.  [next()] runs it up to the
    following [yield], or to the end. *)
Fixpoint generateUserStream_next (userIds : list Z)
  : Async (IteratorResult User * list Z) :=
  match userIds with
  | [] => ret (IterDone, [])
  | userId :: rest =>
      catch
        (p <- fetchUserData userId ;;
         user <- await p ;;
         ret (IterValue user, rest))
        (fun error =>
           console_error
             [AString ("Failed to fetch user " ++ Number_toString userId ++ ":");
              AReason error] ;;
           generateUserStream_next rest)
  end.

(** [for await (const user of generateUserStream(userIds)) users.push(user)].
    Every [next()] consumes at least one identifier or ends the stream, so
    [S (length userIds)] rounds are enough. *)
Fixpoint for_await_push (rounds : nat) (generator : list Z) (users : list User)
  : Async (list User) :=
  match rounds with
  | O => fun w => Pending w
  | S rounds' =>
      step <- generateUserStream_next generator ;;
      match step with
      | (IterValue user, generator') =>
          for_await_push rounds' generator' (push users user)
      | (IterDone, _) => ret users
      end
  end.

Definition collect_users (userIds : list Z) : Async (list User) :=
  for_await_push (S (List.length userIds)) userIds [].

(** ** 10. raceConditionTest *)

(** [Promise.race(ps)]: each input gets a reaction that settles the result;
    the first reaction to run wins. *)
Definition Promise_race {T} (ps : list (Promise T)) : Async (Promise T) :=
  t0 <- clock ;;
  let reaction (p : Promise T) : list (Job (Promise T)) :=
    match p with
    | Some (t, o) => [mkJob (Z.max t0 t) (fun c => settle c (Z.max t0 t) o)]
    | None => []
    end in
  ret (run_jobs (flat_map reaction ps) None).

Definition raceConditionTest (operation1 operation2 : Operation string)
  : Async string :=
  p1 <- invoke operation1 ;;
  p2 <- invoke operation2 ;;
  first <- Promise_race [p1; p2] ;;
  await first.

(** ** 11. complexAsyncOperation *)

(** A function body with one mutable local variable of type [L]. *)
Definition Frame (L : Type) := (L * World)%type.

Definition lift {L T} (m : Async T) : M (Frame L) T :=
  fun f =>
    match m (snd f) with
    | Returned v w' => Returned v (fst f, w')
    | Thrown r w' => Thrown r (fst f, w')
    | Pending w' => Pending (fst f, w')
    end.

Definition read_local {L} : M (Frame L) L :=
  fun f => Returned (fst f) f.

Definition assign {L} (v : L) : M (Frame L) unit :=
  fun f => Returned tt (v, snd f).

Definition with_local {L T} (init : L) (body : M (Frame L) T) : Async T :=
  fun w =>
    match body (init, w) with
    | Returned v f => Returned v (snd f)
    | Thrown r f => Thrown r (snd f)
    | Pending f => Pending (snd f)
    end.

(** [`${resource}`] for [resource : string | null]. *)
Definition template_of (resource : option string) : string :=
  match resource with
  | Some s => s
  | None => "null"
  end.

(** [if (resource)]: [null] and the empty string are falsy. *)
Definition truthy (resource : option string) : bool :=
  match resource with
  | Some s => negb (s =? "")%string
  | None => false
  end.

Definition complexAsyncOperation (shouldFail : bool) : Async string :=
  with_local (None : option string)
    (try_finally
       (p <- lift (new_Promise (fun resolve _ =>
              setTimeout (resolve "allocated resource") 50)) ;;
        allocated <- lift (await p) ;;
        assign (Some allocated) ;;
        (if shouldFail then raise (RError (new_Error "작업 실패"))
         else ret tt) ;;
        q <- lift (new_Promise (fun resolve _ =>
              setTimeout (resolve tt) 100)) ;;
        lift (await q) ;;
        resource <- read_local ;;
        ret ("작업 완료: " ++ template_of resource))
       (resource <- read_local ;;
        if truthy resource then
          q <- lift (new_Promise (fun resolve _ =>
                setTimeout
                  (console_log
                     [AString ("리소스 정리: " ++ template_of resource)] ;;
                   resolve tt)
                  25)) ;;
          lift (await q)
        else ret tt)).

(** ** 12. conditionalAsync *)

Definition conditionalAsync (condition : bool) : Async string :=
  if condition then
    p <- new_Promise (fun resolve _ =>
           setTimeout (resolve "비동기 결과") 100) ;;
    await p
  else
    ret "동기 결과".

(** ** Vocabulary of the statements *)

Definition world0 : World :=
  {| now := 0; console := []; calls := 0; timers := [] |}.

Definition user1 : User :=
  {| id := 1; name := "John Doe"; email := "john@example.com" |}.
Definition user2 : User :=
  {| id := 2; name := "Jane Smith"; email := "jane@example.com" |}.

(** The operations the test suite races and times out. *)
Definition slow_operation : Operation string :=
  fun _ _ => Some (200%N, Fulfilled "slow result").
Definition fast_operation : Operation string :=
  fun _ _ => Some (50%N, Fulfilled "fast result").
Definition error_operation : Operation string :=
  fun _ _ => Some (50%N, Rejected (RError (new_Error "error occurred"))).

(** [jest.fn().mockRejectedValue(new Error("persistent failure"))] *)
Definition failing_operation : Operation string :=
  fun _ _ => Some (0%N, Rejected (RError (new_Error "persistent failure"))).

(** [jest.fn().mockRejectedValueOnce(new Error("first failure"))
             .mockResolvedValue("success")] *)
Definition retry_operation : Operation string :=
  fun k _ =>
    match k with
    | O => Some (0%N, Rejected (RError (new_Error "first failure")))
    | _ => Some (0%N, Fulfilled "success")
    end.

(** The settlement of the lookup for one identifier. *)
Definition lookup (userId : Z) : Outcome User :=
  if userId =? 1 then Fulfilled user1
  else if userId =? 2 then Fulfilled user2
  else Rejected (RError (new_Error "User not found")).

Definition format_user (user : User) : string :=
  "처리된 사용자: " ++ name user ++ " (" ++ email user ++ ")".

Definition processing_failure : Reason :=
  RError (new_Error "사용자 데이터 처리 실패: User not found").

(** What one identifier contributes to an aggregator's output. *)
Definition aggregated (userId : Z) : string :=
  if userId =? 1 then "처리된 사용자: John Doe (john@example.com)"
  else if userId =? 2 then "처리된 사용자: Jane Smith (jane@example.com)"
  else "Error: 사용자 데이터 처리 실패: User not found".

(** The world once the operation has been invoked. *)
Definition invoked (w : World) : World :=
  {| now := now w;
     console := console w;
     calls := S (calls w);
     timers := timers w |}.

(** The world once the operation has been invoked and the fate of the
    deadline timer is known. *)
Definition timed (t : Timer) (w : World) : World :=
  {| now := now w;
     console := console w;
     calls := S (calls w);
     timers := (timers w ++ [t])%list |}.

Definition timed_out : Reason := RError (new_Error "Operation timed out").

(** How a call that adopts a settled promise ends. *)
Definition settlement {T} (o : Outcome T) (w : World) : Result World T :=
  match o with
  | Fulfilled v => Returned v w
  | Rejected r => Thrown r w
  end.

Definition cleanup_log (t : Time) : LogEntry :=
  mkLogEntry LevelLog t [AString "리소스 정리: allocated resource"].

Definition diagnostic (t : Time) (userId : Z) : LogEntry :=
  mkLogEntry LevelError t
    [AString ("Failed to fetch user " ++ Number_toString userId ++ ":");
     AReason (RError (new_Error "User not found"))].

(** The records of the identifiers the lookup knows, in input order. *)
Definition known_records (userIds : list Z) : list User :=
  flat_map
    (fun userId =>
       match lookup userId with
       | Fulfilled user => [user]
       | Rejected _ => []
       end)
    userIds.

(** The identifiers the lookup rejects. *)
Definition unknown_ids (userIds : list Z) : list Z :=
  filter
    (fun userId =>
       match lookup userId with
       | Fulfilled _ => false
       | Rejected _ => true
       end)
    userIds.

(** * userService: the service over its injected collaborators

    A shallow embedding of [src/examples/02-mock-functions/userService.ts].
    The database, the e-mail service and the logger are injected.  Every
    call made to one of them is appended to a trace, as a mock function
    records its calls; what a call to the database or to the e-mail service
    comes to may depend on the calls made before it.  The logger only
    records. *)

Module Service.

(** [interface User] *)
Record User := mkUser
  { id : Z; name : string; email : string; age : Z; isActive : bool }.

(** [Omit<User, "id">] *)
Record UserData := mkUserData
  { data_name : string; data_email : string; data_age : Z;
    data_isActive : bool }.

Inductive Call :=
| Logger_info (msg : string)
| Logger_warn (msg : string)
| Logger_error (msg : string) (error : Reason)
| Database_findUser (userId : Z)
| Database_saveUser (user : User)
| Database_deleteUser (userId : Z)
| Database_getAllUsers
| EmailService_validateEmail (address : string)
| EmailService_sendEmail (to subject body : string).

(** What an asynchronous call to a collaborator comes to: settled after
    some latency, or never. *)
Definition Answer (T : Type) := option (N * Outcome T).

(** [interface Database], each method given the calls made so far. *)
Module Database.
Record t := mk
  { findUser : list Call -> Z -> Answer (option User);
    saveUser : list Call -> User -> Answer User;
    deleteUser : list Call -> Z -> Answer bool;
    getAllUsers : list Call -> Answer (list User) }.
End Database.

(** [interface EmailService] *)
Module EmailService.
Record t := mk
  { sendEmail : list Call -> string -> string -> string -> Answer bool;
    validateEmail : list Call -> string -> bool }.
End EmailService.

(** The clock read by [Date.now()] and the calls made so far. *)
Record State := mkState { clock : Time; trace : list Call }.

Definition record (c : Call) : M State unit :=
  fun s => Returned tt {| clock := clock s; trace := (trace s ++ [c])%list |}.

(** [await collaborator.method(...)]: the call is recorded, then the
    caller resumes when the answer has settled. *)
Definition await_call {T} (c : Call) (method : list Call -> Answer T)
  : M State T :=
  fun s =>
    let s' := {| clock := clock s; trace := (trace s ++ [c])%list |} in
    match method (trace s) with
    | Some (latency, Fulfilled v) =>
        Returned v {| clock := clock s + Z.of_N latency; trace := trace s' |}
    | Some (latency, Rejected r) =>
        Thrown r {| clock := clock s + Z.of_N latency; trace := trace s' |}
    | None => Pending s'
    end.

(** A synchronous call to a collaborator. *)
Definition sync_call {T} (c : Call) (method : list Call -> T) : M State T :=
  fun s =>
    Returned (method (trace s))
      {| clock := clock s; trace := (trace s ++ [c])%list |}.

Definition Date_now : M State Z := fun s => Returned (clock s) s.

Definition logger_info (msg : string) : M State unit :=
  record (Logger_info msg).
Definition logger_warn (msg : string) : M State unit :=
  record (Logger_warn msg).
Definition logger_error (msg : string) (error : Reason) : M State unit :=
  record (Logger_error msg error).

(** [class UserService]: the constructor's database and e-mail service. *)
Record UserService := mkUserService
  { database : Database.t; emailService : EmailService.t }.

Definition getUser (this : UserService) (userId : Z) : M State (option User) :=
  logger_info ("사용자 조회 시도: " ++ Number_toString userId) ;;
  catch
    (user <- await_call (Database_findUser userId)
               (fun calls => Database.findUser (database this) calls userId) ;;
     match user with
     | Some found => logger_info ("사용자 조회 성공: " ++ name found)
     | None => logger_warn ("사용자를 찾을 수 없음: " ++ Number_toString userId)
     end ;;
     ret user)
    (fun error =>
       logger_error ("사용자 조회 실패: " ++ Number_toString userId) error ;;
       raise error).

Definition createUser (this : UserService) (userData : UserData)
  : M State User :=
  logger_info ("사용자 생성 시도: " ++ data_name userData) ;;
  valid <- sync_call (EmailService_validateEmail (data_email userData))
             (fun calls =>
                EmailService.validateEmail (emailService this) calls
                  (data_email userData)) ;;
  (if negb valid then
     let error := RError (new_Error "유효하지 않은 이메일 주소") in
     logger_error "이메일 유효성 검사 실패" error ;;
     raise error
   else ret tt) ;;
  timestamp <- Date_now ;;
  let newUser :=
    {| id := timestamp;
       name := data_name userData;
       email := data_email userData;
       age := data_age userData;
       isActive := data_isActive userData |} in
  catch
    (savedUser <- await_call (Database_saveUser newUser)
                    (fun calls => Database.saveUser (database this) calls newUser) ;;
     let subject := "환영합니다!" in
     let body :=
       "안녕하세요 " ++ name savedUser ++ "님, 회원가입을 축하합니다!" in
     _ <- await_call (EmailService_sendEmail (email savedUser) subject body)
            (fun calls =>
               EmailService.sendEmail (emailService this) calls
                 (email savedUser) subject body) ;;
     logger_info ("사용자 생성 성공: " ++ name savedUser) ;;
     ret savedUser)
    (fun error =>
       logger_error ("사용자 생성 실패: " ++ data_name userData) error ;;
       raise error).

Definition deleteUser (this : UserService) (userId : Z) : M State bool :=
  logger_info ("사용자 삭제 시도: " ++ Number_toString userId) ;;
  catch
    (user <- await_call (Database_findUser userId)
               (fun calls => Database.findUser (database this) calls userId) ;;
     match user with
     | None =>
         logger_warn
           ("삭제할 사용자를 찾을 수 없음: " ++ Number_toString userId) ;;
         ret false
     | Some found =>
         deleted <- await_call (Database_deleteUser userId)
                      (fun calls => Database.deleteUser (database this) calls userId) ;;
         (if deleted : bool
          then logger_info ("사용자 삭제 성공: " ++ name found)
          else ret tt) ;;
         ret deleted
     end)
    (fun error =>
       logger_error ("사용자 삭제 실패: " ++ Number_toString userId) error ;;
       raise error).

Definition getActiveUsers (this : UserService) : M State (list User) :=
  logger_info "활성 사용자 목록 조회" ;;
  catch
    (allUsers <- await_call Database_getAllUsers
                   (fun calls => Database.getAllUsers (database this) calls) ;;
     let activeUsers := filter (fun user => isActive user) allUsers in
     logger_info
       ("활성 사용자 "
          ++ Number_toString (Z.of_nat (List.length activeUsers))
          ++ "명 조회") ;;
     ret activeUsers)
    (fun error =>
       logger_error "활성 사용자 목록 조회 실패" error ;;
       raise error).

(** [users.forEach(callback)] *)
Fixpoint forEach {S A} (array : list A) (callback : A -> M S unit) : M S unit :=
  match array with
  | [] => ret tt
  | x :: rest => callback x ;; forEach rest callback
  end.

Definition processUsers {S} (users : list User)
    (onSuccess : User -> M S unit) (onError : Reason -> M S unit) : M S unit :=
  catch
    (forEach users (fun user =>
       if isActive user then onSuccess user else ret tt))
    (fun error => onError error).

Definition createUserFilter (minAge : Z) : User -> bool :=
  fun user => age user >=? minAge.

(** What [createUser] hands to the database: the data with [Date.now()]
    as identifier. *)
Definition newUser_of (userData : UserData) (s : State) : User :=
  {| id := clock s;
     name := data_name userData;
     email := data_email userData;
     age := data_age userData;
     isActive := data_isActive userData |}.

(** The welcome e-mail for a saved user. *)
Definition welcome (savedUser : User) : Call :=
  EmailService_sendEmail (email savedUser) "환영합니다!"
    ("안녕하세요 " ++ name savedUser ++ "님, 회원가입을 축하합니다!").

(** The calls [createUser] makes up to and including the save. *)
Definition creation_calls (userData : UserData) (s : State) : list Call :=
  [Logger_info ("사용자 생성 시도: " ++ data_name userData);
   EmailService_validateEmail (data_email userData);
   Database_saveUser (newUser_of userData s)].

End Service.

(** ** Collaborators for concrete runs of the service *)

Definition alice : Service.User :=
  {| Service.id := 1; Service.name := "Alice";
     Service.email := "alice@example.com"; Service.age := 30;
     Service.isActive := true |}.

Definition bob : Service.User :=
  {| Service.id := 2; Service.name := "Bob";
     Service.email := "bob@example.com"; Service.age := 17;
     Service.isActive := false |}.

Definition dave : Service.User :=
  {| Service.id := 4; Service.name := "Dave";
     Service.email := "dave@example.com"; Service.age := 50;
     Service.isActive := true |}.

Definition carol_data : Service.UserData :=
  {| Service.data_name := "Carol"; Service.data_email := "carol@example.com";
     Service.data_age := 41; Service.data_isActive := true |}.

(** A database that knows [alice] under 1 and [bob] under 2, stores what it
    is given and deletes what it is asked to. *)
Definition mock_database : Service.Database.t :=
  {| Service.Database.findUser := fun _ userId =>
       Some (0%N, Fulfilled
                    (if userId =? 1 then Some alice
                     else if userId =? 2 then Some bob
                     else None));
     Service.Database.saveUser := fun _ user => Some (0%N, Fulfilled user);
     Service.Database.deleteUser := fun _ _ => Some (0%N, Fulfilled true);
     Service.Database.getAllUsers := fun _ => Some (0%N, Fulfilled [alice; bob]) |}.

(** A database whose every call is rejected. *)
Definition failing_database : Service.Database.t :=
  {| Service.Database.findUser := fun _ _ =>
       Some (0%N, Rejected (RError (new_Error "Database error")));
     Service.Database.saveUser := fun _ _ =>
       Some (0%N, Rejected (RError (new_Error "Database error")));
     Service.Database.deleteUser := fun _ _ =>
       Some (0%N, Rejected (RError (new_Error "Database error")));
     Service.Database.getAllUsers := fun _ =>
       Some (0%N, Rejected (RError (new_Error "Database error"))) |}.

(** An e-mail service that accepts every address and delivers. *)
Definition mock_emailService : Service.EmailService.t :=
  {| Service.EmailService.sendEmail := fun _ _ _ _ => Some (0%N, Fulfilled true);
     Service.EmailService.validateEmail := fun _ _ => true |}.

(** An e-mail service that accepts every address and fails to deliver. *)
Definition failing_emailService : Service.EmailService.t :=
  {| Service.EmailService.sendEmail := fun _ _ _ _ =>
       Some (0%N, Rejected (RError (new_Error "SMTP error")));
     Service.EmailService.validateEmail := fun _ _ => true |}.

(** An e-mail service that accepts no address. *)
Definition strict_emailService : Service.EmailService.t :=
  {| Service.EmailService.sendEmail := fun _ _ _ _ => Some (0%N, Fulfilled true);
     Service.EmailService.validateEmail := fun _ _ => false |}.

Definition state0 : Service.State :=
  {| Service.clock := 1700000000000; Service.trace := [] |}.

(** * Runs taken from the test suite *)

Example processUserData_1 :
  processUserData 1 world0 =
  Returned "처리된 사용자: John Doe (john@example.com)" (set_now 100 world0).
Proof. reflexivity. Qed.

Example processMultipleUsers_1_2_999 :
  processMultipleUsers [1; 2; 999] world0 =
  Returned
    ["처리된 사용자: John Doe (john@example.com)";
     "처리된 사용자: Jane Smith (jane@example.com)";
     "Error: 사용자 데이터 처리 실패: User not found"]
    (set_now 300 world0).
Proof. reflexivity. Qed.

Example processUsersParallel_1_999_2 :
  processUsersParallel [1; 999; 2] world0 =
  Returned
    ["처리된 사용자: John Doe (john@example.com)";
     "Error: 사용자 데이터 처리 실패: User not found";
     "처리된 사용자: Jane Smith (jane@example.com)"]
    (set_now 100 world0).
Proof. reflexivity. Qed.

Example fetchWithRetry_second_attempt :
  fetchWithRetry retry_operation 3 world0 =
  Returned "success" {| now := 100; console := []; calls := 2; timers := [] |}.
Proof. reflexivity. Qed.

Example fetchWithRetry_exhausted :
  fetchWithRetry failing_operation 2 world0 =
  Thrown
    (RError (new_Error "최대 재시도 횟수 초과 (2회): persistent failure"))
    {| now := 100; console := []; calls := 2; timers := [] |}.
Proof. reflexivity. Qed.

Example fetchWithTimeout_slow :
  fetchWithTimeout slow_operation 50 world0 =
  Returned
    (Some (50, Rejected (RError (new_Error "Operation timed out"))))
    {| now := 0; console := []; calls := 1; timers := [mkTimer 50 Fired] |}.
Proof. reflexivity. Qed.

(** * Properties *)

(** ** The world and the clock *)

Lemma set_now_now (w : World) : set_now (now w) w = w.
Proof. destruct w; reflexivity. Qed.

Lemma await_run {T} (t : Time) (o : Outcome T) (w : World) :
  now w <= t ->
  await (Some (t, o)) w =
  match o with
  | Fulfilled v => Returned v (set_now t w)
  | Rejected r => Thrown r (set_now t w)
  end.
Proof.
  intros H. unfold await. rewrite Z.max_r by assumption.
  destruct o; reflexivity.
Qed.

Lemma bind_run {S T U} (m : M S T) (k : T -> M S U) (s : S) :
  bind m k s =
  match m s with
  | Returned v s' => k v s'
  | Thrown r s' => Thrown r s'
  | Pending s' => Pending s'
  end.
Proof. reflexivity. Qed.

Lemma catch_run {S T} (body : M S T) (handler : Reason -> M S T) (s : S) :
  catch body handler s =
  match body s with
  | Returned v s' => Returned v s'
  | Thrown r s' => handler r s'
  | Pending s' => Pending s'
  end.
Proof. reflexivity. Qed.

(** ** The lookup *)

(** With [userId <> 1] and [userId <> 2] at hand, settle both comparisons
    of the lookup. *)
Ltac other_identifier userId :=
  destruct (Z.eqb_spec userId 1); [contradiction|];
  destruct (Z.eqb_spec userId 2); [contradiction|].

Lemma fetchUserData_run (userId : Z) (w : World) :
  fetchUserData userId w = Returned (Some (now w + 100, lookup userId)) w.
Proof.
  unfold fetchUserData, new_Promise, setTimeout, start, after, lookup.
  destruct (userId =? 1); [|destruct (userId =? 2)]; destruct w; reflexivity.
Qed.

Lemma processUserData_run (userId : Z) (w : World) :
  processUserData userId w =
  match lookup userId with
  | Fulfilled user => Returned (format_user user) (set_now (now w + 100) w)
  | Rejected _ => Thrown processing_failure (set_now (now w + 100) w)
  end.
Proof.
  unfold processUserData. cbn [catch bind Exc_M Monad_M].
  rewrite fetchUserData_run, await_run by lia.
  unfold lookup.
  destruct (userId =? 1); [|destruct (userId =? 2)]; reflexivity.
Qed.

(** ** The aggregators *)

Lemma start_processUserData (userId : Z) (w : World) :
  start (processUserData userId) w =
  Returned
    (Some (now w + 100,
           match lookup userId with
           | Fulfilled user => Fulfilled (format_user user)
           | Rejected _ => Rejected processing_failure
           end))
    w.
Proof.
  unfold start. rewrite processUserData_run.
  destruct (lookup userId); destruct w; reflexivity.
Qed.

Lemma sequential_item (userId : Z) (results : list string) (w : World) :
  catch
    (p <- start (processUserData userId) ;;
     processed <- await p ;;
     ret (push results processed))
    (fun error =>
       msg <- message_of error ;;
       ret (push results ("Error: " ++ msg))) w =
  Returned (push results (aggregated userId)) (set_now (now w + 100) w).
Proof.
  cbn [catch bind Exc_M Monad_M].
  rewrite start_processUserData, await_run by lia.
  unfold lookup, aggregated.
  destruct (userId =? 1); [|destruct (userId =? 2)]; reflexivity.
Qed.

Lemma processMultipleUsers_loop_run (userIds : list Z) :
  forall (results : list string) (w : World),
  exists t,
    now w <= t /\
    processMultipleUsers_loop userIds results w =
    Returned (results ++ map aggregated userIds)%list (set_now t w).
Proof.
  induction userIds as [|userId rest IH]; intros results w.
  - exists (now w). split; [lia|].
    cbn. rewrite app_nil_r, set_now_now. reflexivity.
  - destruct (IH (push results (aggregated userId)) (set_now (now w + 100) w))
      as [t [Ht Hrun]].
    exists t. cbn [now set_now] in Ht. split; [lia|].
    cbn [processMultipleUsers_loop].
    rewrite bind_run, sequential_item, Hrun.
    unfold push. rewrite <- app_assoc. reflexivity.
Qed.

Lemma parallel_item (userId : Z) (w : World) :
  start
    (catch
       (p <- start (processUserData userId) ;;
        await p)
       (fun error =>
          msg <- message_of error ;;
          ret ("Error: " ++ msg))) w =
  Returned (Some (now w + 100, Fulfilled (aggregated userId))) w.
Proof.
  unfold start at 1. cbn [catch bind Exc_M Monad_M].
  rewrite start_processUserData, await_run by lia.
  unfold lookup, aggregated.
  destruct (userId =? 1); [|destruct (userId =? 2)]; destruct w; reflexivity.
Qed.

Lemma Array_map_run {A B} (f : A -> Async B) (g : World -> A -> B) (l : list A)
    (w : World) :
  (forall x, f x w = Returned (g w x) w) ->
  Array_map f l w = Returned (map (g w) l) w.
Proof.
  intros Hf. induction l as [|x rest IH]; [reflexivity|].
  cbn [Array_map bind Monad_M map]. rewrite Hf, IH. reflexivity.
Qed.

Lemma first_rejection_fulfilled {A T} (t : Time) (g : A -> T) (l : list A) :
  first_rejection (@map A (Promise T) (fun x => Some (t, Fulfilled (g x))) l)
  = None.
Proof.
  induction l as [|x rest IH]; [reflexivity|].
  cbn [map first_rejection]. rewrite IH. reflexivity.
Qed.

Lemma gather_fulfilled {A T} (t0 t : Time) (g : A -> T) (l : list A) :
  t0 <= t ->
  exists t',
    t0 <= t' /\
    gather t0 (@map A (Promise T) (fun x => Some (t, Fulfilled (g x))) l)
    = Some (t', map g l).
Proof.
  intros Ht. induction l as [|x rest [t' [Ht' IH]]].
  - exists t0. split; [lia | reflexivity].
  - exists (Z.max t t'). split; [lia|].
    cbn [map gather]. rewrite IH. reflexivity.
Qed.

Lemma processUsersParallel_run (userIds : list Z) (w : World) :
  exists t,
    now w <= t /\
    processUsersParallel userIds w =
    Returned (map aggregated userIds) (set_now t w).
Proof.
  destruct (gather_fulfilled (now w) (now w + 100) aggregated userIds)
    as [t [Ht Hgather]]; [lia|].
  exists t. split; [assumption|].
  unfold processUsersParallel. cbn [bind Monad_M].
  rewrite (Array_map_run (B := Promise string) _
             (fun w userId => Some (now w + 100, Fulfilled (aggregated userId))))
    by (intros; apply parallel_item).
  cbv beta. unfold Promise_all.
  rewrite first_rejection_fulfilled, Hgather.
  rewrite await_run by assumption. reflexivity.
Qed.

(** C3.  For every input sequence of identifiers the sequential and the
    parallel aggregator return the same list: it has the length of the
    input, and the value at each position is the one contributed by the
    identifier at that position of the input. *)
Theorem aggregators_agree (userIds : list Z) (w : World) :
  exists results w_sequential w_parallel,
    processMultipleUsers userIds w = Returned results w_sequential /\
    processUsersParallel userIds w = Returned results w_parallel /\
    List.length results = List.length userIds /\
    results = map aggregated userIds.
Proof.
  destruct (processMultipleUsers_loop_run userIds [] w) as [t1 [_ Hseq]].
  destruct (processUsersParallel_run userIds w) as [t2 [_ Hpar]].
  exists (map aggregated userIds), (set_now t1 w), (set_now t2 w).
  repeat split; try assumption.
  apply length_map.
Qed.

(** C4.  Identifier 1 resolves to John Doe's record and identifier 2 to
    Jane Smith's; for every other identifier the lookup is rejected with
    the error "User not found". *)
Theorem fetchUserData_lookup (w : World) :
  fetchUserData 1 w =
    Returned
      (Some (now w + 100,
             Fulfilled
               {| id := 1; name := "John Doe"; email := "john@example.com" |}))
      w /\
  fetchUserData 2 w =
    Returned
      (Some (now w + 100,
             Fulfilled
               {| id := 2; name := "Jane Smith"; email := "jane@example.com" |}))
      w /\
  forall userId,
    userId <> 1 -> userId <> 2 ->
    fetchUserData userId w =
      Returned
        (Some (now w + 100, Rejected (RError (new_Error "User not found"))))
        w.
Proof.
  repeat split; try apply fetchUserData_run.
  intros userId H1 H2. rewrite fetchUserData_run. unfold lookup.
  other_identifier userId.
  reflexivity.
Qed.

Lemma fetchUserData_lookup_witness :
  999 <> 1 /\ 999 <> 2 /\
  fetchUserData 999 world0 =
    Returned (Some (100, Rejected (RError (new_Error "User not found"))))
      world0.
Proof.
  assert (H1 : 999 <> 1) by discriminate.
  assert (H2 : 999 <> 2) by discriminate.
  split; [exact H1 | split; [exact H2 |]].
  exact (proj2 (proj2 (fetchUserData_lookup world0)) 999 H1 H2).
Defined.

Lemma nth_error_aggregated (userIds : list Z) (i : nat) (userId : Z) :
  nth_error userIds i = Some userId ->
  userId <> 1 -> userId <> 2 ->
  nth_error (map aggregated userIds) i =
  Some "Error: 사용자 데이터 처리 실패: User not found".
Proof.
  intros Hi H1 H2. rewrite nth_error_map, Hi. cbn. unfold aggregated.
  other_identifier userId.
  reflexivity.
Qed.

(** C10.  The lookup-and-format step returns, when the lookup yields a
    record, exactly "처리된 사용자: <name> (<email>)"; for an identifier
    other than 1 and 2 it throws an error with the message
    "사용자 데이터 처리 실패: User not found"; and in the output of either
    aggregator the position of such an identifier holds
    "Error: 사용자 데이터 처리 실패: User not found". *)
Theorem processUserData_strings (w : World) :
  (forall userId t user,
     fetchUserData userId w = Returned (Some (t, Fulfilled user)) w ->
     processUserData userId w =
       Returned ("처리된 사용자: " ++ name user ++ " (" ++ email user ++ ")")
         (set_now t w)) /\
  (forall userId,
     userId <> 1 -> userId <> 2 ->
     processUserData userId w =
       Thrown (RError (new_Error "사용자 데이터 처리 실패: User not found"))
         (set_now (now w + 100) w)) /\
  (forall userIds i userId,
     nth_error userIds i = Some userId ->
     userId <> 1 -> userId <> 2 ->
     exists results w_sequential w_parallel,
       processMultipleUsers userIds w = Returned results w_sequential /\
       processUsersParallel userIds w = Returned results w_parallel /\
       nth_error results i =
         Some "Error: 사용자 데이터 처리 실패: User not found").
Proof.
  split; [|split].
  - intros userId t user H. rewrite fetchUserData_run in H.
    injection H as Ht Hlookup. subst t.
    rewrite processUserData_run, Hlookup. reflexivity.
  - intros userId H1 H2. rewrite processUserData_run. unfold lookup.
    other_identifier userId.
    reflexivity.
  - intros userIds i userId Hi H1 H2.
    destruct (processMultipleUsers_loop_run userIds [] w) as [t1 [_ Hseq]].
    destruct (processUsersParallel_run userIds w) as [t2 [_ Hpar]].
    exists (map aggregated userIds), (set_now t1 w), (set_now t2 w).
    repeat split; try assumption.
    apply nth_error_aggregated with (userId := userId); assumption.
Qed.

Lemma processUserData_strings_witness :
  processUserData 2 world0 =
    Returned "처리된 사용자: Jane Smith (jane@example.com)" (set_now 100 world0) /\
  processUserData 999 world0 =
    Thrown (RError (new_Error "사용자 데이터 처리 실패: User not found"))
      (set_now 100 world0) /\
  exists results w_sequential w_parallel,
    processMultipleUsers [1; 999; 2] world0 = Returned results w_sequential /\
    processUsersParallel [1; 999; 2] world0 = Returned results w_parallel /\
    nth_error results 1 =
      Some "Error: 사용자 데이터 처리 실패: User not found".
Proof.
  assert (H1 : 999 <> 1) by discriminate.
  assert (H2 : 999 <> 2) by discriminate.
  destruct (processUserData_strings world0) as [Hvalid [Hinvalid Hposition]].
  split; [|split].
  - exact (Hvalid 2 100 user2 eq_refl).
  - exact (Hinvalid 999 H1 H2).
  - exact (Hposition [1; 999; 2] 1%nat 999 eq_refl H1 H2).
Defined.

(** ** The retry wrapper *)

Lemma Z_range_nil (lo hi : Z) : hi < lo -> Z_range lo hi = [].
Proof.
  intros H. unfold Z_range.
  replace (Z.to_nat (hi - lo + 1)) with 0%nat by lia. reflexivity.
Qed.

Lemma Z_range_cons (lo hi : Z) :
  lo <= hi -> Z_range lo hi = lo :: Z_range (lo + 1) hi.
Proof.
  intros H. unfold Z_range.
  replace (Z.to_nat (hi - lo + 1)) with (S (Z.to_nat (hi - (lo + 1) + 1)))
    by lia.
  cbn [seq map]. f_equal; [lia|].
  rewrite <- seq_shift, map_map.
  apply map_ext. intros k. lia.
Qed.

Lemma timer_delay_positive (d : Z) : 1 <= timer_delay d.
Proof.
  unfold timer_delay.
  destruct (Z.leb_spec 1 d); cbn; [destruct (d <=? 2147483647)|]; lia.
Qed.

Lemma attempt_run {T} (operation : Operation T) (w : World) :
  (p <- invoke operation ;; await p) w =
  match operation (calls w) (now w) with
  | Some (latency, Fulfilled v) =>
      Returned v (set_now (now w + Z.of_N latency) (invoked w))
  | Some (latency, Rejected r) =>
      Thrown r (set_now (now w + Z.of_N latency) (invoked w))
  | None => Pending (invoked w)
  end.
Proof.
  rewrite bind_run. unfold invoke.
  destruct (operation (calls w) (now w)) as [[latency o]|]; [|reflexivity].
  fold (invoked w).
  rewrite await_run by (cbn; lia).
  destruct o; reflexivity.
Qed.

Lemma backoff_run (delay : Z) (w : World) :
  (p <- new_Promise (fun resolve _ => setTimeout (resolve tt) delay) ;;
   await p) w =
  Returned tt (set_now (now w + timer_delay delay) w).
Proof.
  pose proof (timer_delay_positive delay) as Hd.
  rewrite bind_run.
  unfold new_Promise, setTimeout, start, after. cbn [ret Monad_M now set_now].
  rewrite await_run by (cbn; lia).
  reflexivity.
Qed.

Section RetryLoop.

Context {T : Type} (operation : Operation T) (maxRetries : Z).

Lemma fetchWithRetry_loop_success
    (attempt : Z) (rest : list Z) (lastError : Reason) (w : World)
    (latency : N) (v : T) :
  operation (calls w) (now w) = Some (latency, Fulfilled v) ->
  fetchWithRetry_loop operation maxRetries (attempt :: rest) lastError w =
  Returned v (set_now (now w + Z.of_N latency) (invoked w)).
Proof.
  intros H. cbn [fetchWithRetry_loop].
  rewrite catch_run, attempt_run, H. reflexivity.
Qed.

Lemma fetchWithRetry_loop_retry
    (attempt : Z) (rest : list Z) (lastError : Reason) (w : World)
    (latency : N) (r : Reason) :
  operation (calls w) (now w) = Some (latency, Rejected r) ->
  attempt <> maxRetries ->
  fetchWithRetry_loop operation maxRetries (attempt :: rest) lastError w =
  fetchWithRetry_loop operation maxRetries rest r
    (set_now
       (now w + Z.of_N latency + timer_delay (100 * 2 ^ (attempt - 1)))
       (invoked w)).
Proof.
  intros H Hne. cbn [fetchWithRetry_loop].
  rewrite catch_run, attempt_run, H.
  destruct (Z.eqb_spec attempt maxRetries); [contradiction|].
  rewrite bind_run.
  unfold new_Promise, setTimeout, start, after.
  cbn [ret Monad_M now set_now].
  pose proof (timer_delay_positive (100 * 2 ^ (attempt - 1))) as Hd.
  rewrite bind_run, await_run by (cbn [now set_now invoked]; lia).
  reflexivity.
Qed.

Lemma fetchWithRetry_loop_exhausted
    (rest : list Z) (lastError : Reason) (w : World)
    (latency : N) (e : Error) :
  operation (calls w) (now w) = Some (latency, Rejected (RError e)) ->
  fetchWithRetry_loop operation maxRetries (maxRetries :: rest) lastError w =
  Thrown
    (RError (new_Error
       ("최대 재시도 횟수 초과 (" ++ Number_toString maxRetries
          ++ "회): " ++ message e)))
    (set_now (now w + Z.of_N latency) (invoked w)).
Proof.
  intros H. cbn [fetchWithRetry_loop].
  rewrite catch_run, attempt_run, H, Z.eqb_refl. reflexivity.
Qed.

(** [j] failed attempts in a row take the loop [j] rounds further, each
    with one invocation. *)
Lemma fetchWithRetry_loop_failures (j : nat) :
  forall (attempt : Z) (lastError : Reason) (w : World),
    attempt + Z.of_nat j <= maxRetries ->
    (forall i, (i < j)%nat -> forall t,
       exists latency r,
         operation (calls w + i)%nat t = Some (latency, Rejected r)) ->
    exists lastError' w',
      fetchWithRetry_loop operation maxRetries
        (Z_range attempt maxRetries) lastError w =
      fetchWithRetry_loop operation maxRetries
        (Z_range (attempt + Z.of_nat j) maxRetries) lastError' w' /\
      calls w' = (calls w + j)%nat.
Proof.
  induction j as [|j IH]; intros attempt lastError w Hle Hfail.
  - exists lastError, w. rewrite Z.add_0_r, Nat.add_0_r. split; reflexivity.
  - destruct (Hfail 0%nat ltac:(lia) (now w)) as [latency [r Hr]].
    rewrite Nat.add_0_r in Hr.
    rewrite Z_range_cons by lia.
    rewrite (fetchWithRetry_loop_retry _ _ _ _ latency r Hr) by lia.
    match goal with
    | |- context [fetchWithRetry_loop _ _ (Z_range (attempt + 1) _) r ?w1] =>
        destruct (IH (attempt + 1) r w1) as [lastError' [w' [Hrun Hcalls]]]
    end.
    + lia.
    + intros i Hi t. cbn [calls set_now invoked].
      replace (S (calls w) + i)%nat with (calls w + S i)%nat by lia.
      apply Hfail. lia.
    + exists lastError', w'. rewrite Hrun. split.
      * do 2 f_equal. lia.
      * rewrite Hcalls. cbn [calls set_now invoked]. lia.
Qed.

End RetryLoop.

(** C1.  With a maximum attempt count of at least 1: if the operation fails
    [k] times and then succeeds within the budget, the wrapper returns that
    success at the instant it arrives, after exactly [k + 1] invocations;
    if it fails on every attempt (the last time with an error object), the
    wrapper invokes it exactly [maxRetries] times and throws an error whose
    message reports [maxRetries] and the message of the last failure. *)
Theorem fetchWithRetry_attempts {T} (operation : Operation T)
    (maxRetries : Z) (w : World) :
  1 <= maxRetries ->
  (forall k : nat,
     Z.of_nat k < maxRetries ->
     (forall i, (i < k)%nat -> forall t,
        exists latency r,
          operation (calls w + i)%nat t = Some (latency, Rejected r)) ->
     (forall t,
        exists latency v,
          operation (calls w + k)%nat t = Some (latency, Fulfilled v)) ->
     exists t latency v w',
       operation (calls w + k)%nat t = Some (latency, Fulfilled v) /\
       fetchWithRetry operation maxRetries w = Returned v w' /\
       now w' = t + Z.of_N latency /\
       calls w' = (calls w + k + 1)%nat) /\
  ((forall i, Z.of_nat i < maxRetries - 1 -> forall t,
      exists latency r,
        operation (calls w + i)%nat t = Some (latency, Rejected r)) ->
   (forall t,
      exists latency e,
        operation (calls w + Z.to_nat (maxRetries - 1))%nat t =
        Some (latency, Rejected (RError e))) ->
   exists t latency e w',
     operation (calls w + Z.to_nat (maxRetries - 1))%nat t =
       Some (latency, Rejected (RError e)) /\
     fetchWithRetry operation maxRetries w =
       Thrown
         (RError (new_Error
            ("최대 재시도 횟수 초과 (" ++ Number_toString maxRetries
               ++ "회): " ++ message e)))
         w' /\
     calls w' = (calls w + Z.to_nat maxRetries)%nat).
Proof.
  intros Hmax. split.
  - intros k Hk Hfail Hsuccess.
    destruct (fetchWithRetry_loop_failures operation maxRetries k 1
                RUndefined w ltac:(lia) Hfail)
      as [lastError' [w' [Hrun Hcalls]]].
    destruct (Hsuccess (now w')) as [latency [v Hv]].
    exists (now w'), latency, v,
      (set_now (now w' + Z.of_N latency) (invoked w')).
    split; [assumption|].
    unfold fetchWithRetry. rewrite Hrun, Z_range_cons by lia.
    rewrite <- Hcalls in Hv.
    rewrite (fetchWithRetry_loop_success _ _ _ _ _ _ latency v Hv).
    cbn [now calls set_now invoked]. repeat split. lia.
  - intros Hfail Hlast.
    destruct (fetchWithRetry_loop_failures operation maxRetries
                (Z.to_nat (maxRetries - 1)) 1 RUndefined w ltac:(lia))
      as [lastError' [w' [Hrun Hcalls]]].
    { intros i Hi t. apply Hfail. lia. }
    destruct (Hlast (now w')) as [latency [e He]].
    exists (now w'), latency, e,
      (set_now (now w' + Z.of_N latency) (invoked w')).
    split; [assumption|].
    unfold fetchWithRetry. rewrite Hrun.
    replace (1 + Z.of_nat (Z.to_nat (maxRetries - 1))) with maxRetries by lia.
    rewrite Z_range_cons by lia.
    rewrite <- Hcalls in He.
    rewrite (fetchWithRetry_loop_exhausted _ _ _ _ _ latency e He).
    cbn [now calls set_now invoked]. split; [reflexivity | lia].
Qed.

Lemma fetchWithRetry_attempts_witness :
  (exists t latency v w',
     retry_operation 1%nat t = Some (latency, Fulfilled v) /\
     fetchWithRetry retry_operation 3 world0 = Returned v w' /\
     now w' = t + Z.of_N latency /\
     calls w' = 2%nat) /\
  (exists t latency e w',
     failing_operation 1%nat t = Some (latency, Rejected (RError e)) /\
     fetchWithRetry failing_operation 2 world0 =
       Thrown
         (RError (new_Error
            ("최대 재시도 횟수 초과 (" ++ Number_toString 2
               ++ "회): " ++ message e)))
         w' /\
     calls w' = 2%nat).
Proof.
  assert (H3 : 1 <= 3) by discriminate.
  assert (H2 : 1 <= 2) by discriminate.
  split.
  - apply (proj1 (fetchWithRetry_attempts retry_operation 3 world0 H3) 1%nat).
    + reflexivity.
    + intros i Hi t. destruct i as [|i].
      * exists 0%N, (RError (new_Error "first failure")). reflexivity.
      * exfalso. apply (Nat.nlt_0_r i). apply Nat.succ_lt_mono. exact Hi.
    + intros t. exists 0%N, "success". reflexivity.
  - apply (proj2 (fetchWithRetry_attempts failing_operation 2 world0 H2)).
    + intros i _ t.
      exists 0%N, (RError (new_Error "persistent failure")). reflexivity.
    + intros t. exists 0%N, (new_Error "persistent failure"). reflexivity.
Defined.

(** C9.  With a maximum attempt count of 0 or less the loop body is never
    entered: the operation is not invoked, and the wrapper throws the
    variable [lastError] as it was declared, i.e. [undefined], not an error
    that reports the attempt count. *)
Theorem fetchWithRetry_no_attempt {T} (operation : Operation T)
    (maxRetries : Z) (w : World) :
  maxRetries <= 0 ->
  fetchWithRetry operation maxRetries w = Thrown RUndefined w.
Proof.
  intros H. unfold fetchWithRetry. rewrite Z_range_nil by lia. reflexivity.
Qed.

Lemma fetchWithRetry_no_attempt_witness :
  0 <= 0 /\
  fetchWithRetry retry_operation 0 world0 = Thrown RUndefined world0.
Proof.
  assert (H : 0 <= 0) by discriminate.
  split; [exact H|].
  exact (fetchWithRetry_no_attempt retry_operation 0 world0 H).
Defined.

(** ** The timeout wrapper *)

Lemma fetchWithTimeout_settled {T} (operation : Operation T) (timeout : Z)
    (w : World) (latency : N) (o : Outcome T) :
  operation (calls w) (now w) = Some (latency, o) ->
  fetchWithTimeout operation timeout w =
  if now w + Z.of_N latency <? now w + timer_delay timeout then
    Returned (Some (now w + Z.of_N latency, o))
      (timed (mkTimer (now w + timer_delay timeout) Cleared) w)
  else
    Returned (Some (now w + timer_delay timeout, Rejected timed_out))
      (timed (mkTimer (now w + timer_delay timeout) Fired) w).
Proof.
  intros H. unfold fetchWithTimeout.
  rewrite bind_run. cbn [clock].
  rewrite bind_run. unfold invoke. rewrite H.
  unfold run_jobs, schedule. cbn [fold_left enqueue at_instant].
  destruct (now w + Z.of_N latency <? now w + timer_delay timeout);
    reflexivity.
Qed.

Lemma fetchWithTimeout_unsettled {T} (operation : Operation T) (timeout : Z)
    (w : World) :
  operation (calls w) (now w) = None ->
  fetchWithTimeout operation timeout w =
  Returned (Some (now w + timer_delay timeout, Rejected timed_out))
    (timed (mkTimer (now w + timer_delay timeout) Fired) w).
Proof.
  intros H. unfold fetchWithTimeout.
  rewrite bind_run. cbn [clock].
  rewrite bind_run. unfold invoke. rewrite H.
  reflexivity.
Qed.

(** C2.  If the operation settles, with success or with failure, before
    the deadline, the wrapper settles in the same way at the same instant
    and the deadline timer ends up cleared.  If the operation settles only
    after the deadline, or never, the wrapper is rejected at the deadline
    with the error "Operation timed out", whatever the operation would have
    settled with. *)
Theorem fetchWithTimeout_deadline {T} (operation : Operation T) (timeout : Z)
    (w : World) :
  (forall latency o,
     operation (calls w) (now w) = Some (latency, o) ->
     Z.of_N latency < timer_delay timeout ->
     fetchWithTimeout operation timeout w =
       Returned (Some (now w + Z.of_N latency, o))
         {| now := now w;
            console := console w;
            calls := S (calls w);
            timers :=
              (timers w ++ [mkTimer (now w + timer_delay timeout) Cleared])%list
         |}) /\
  ((operation (calls w) (now w) = None \/
    exists latency o,
      operation (calls w) (now w) = Some (latency, o) /\
      timer_delay timeout < Z.of_N latency) ->
   fetchWithTimeout operation timeout w =
     Returned
       (Some (now w + timer_delay timeout,
              Rejected (RError (new_Error "Operation timed out"))))
       {| now := now w;
          console := console w;
          calls := S (calls w);
          timers :=
            (timers w ++ [mkTimer (now w + timer_delay timeout) Fired])%list
       |}).
Proof.
  split.
  - intros latency o H Hlt.
    rewrite (fetchWithTimeout_settled _ _ _ latency o H).
    destruct (Z.ltb_spec (now w + Z.of_N latency) (now w + timer_delay timeout));
      [reflexivity | lia].
  - intros [H | [latency [o [H Hlt]]]].
    + apply fetchWithTimeout_unsettled. assumption.
    + rewrite (fetchWithTimeout_settled _ _ _ latency o H).
      destruct (Z.ltb_spec (now w + Z.of_N latency) (now w + timer_delay timeout));
        [lia | reflexivity].
Qed.

Lemma fetchWithTimeout_deadline_witness :
  fetchWithTimeout fast_operation 200 world0 =
    Returned (Some (50, Fulfilled "fast result"))
      {| now := 0; console := []; calls := 1;
         timers := [mkTimer 200 Cleared] |} /\
  fetchWithTimeout error_operation 200 world0 =
    Returned (Some (50, Rejected (RError (new_Error "error occurred"))))
      {| now := 0; console := []; calls := 1;
         timers := [mkTimer 200 Cleared] |} /\
  fetchWithTimeout slow_operation 50 world0 =
    Returned (Some (50, Rejected (RError (new_Error "Operation timed out"))))
      {| now := 0; console := []; calls := 1;
         timers := [mkTimer 50 Fired] |}.
Proof.
  split; [|split].
  - exact (proj1 (fetchWithTimeout_deadline fast_operation 200 world0)
             50%N (Fulfilled "fast result") eq_refl eq_refl).
  - exact (proj1 (fetchWithTimeout_deadline error_operation 200 world0)
             50%N (Rejected (RError (new_Error "error occurred")))
             eq_refl eq_refl).
  - apply (proj2 (fetchWithTimeout_deadline slow_operation 50 world0)).
    right. exists 200%N, (Fulfilled "slow result").
    split; reflexivity.
Defined.

(** ** The callback bridge *)

Lemma setTimeout_run {T} (callback : Async T) (delay : Z) (w : World) :
  setTimeout callback delay w =
  match callback (set_now (now w + timer_delay delay) w) with
  | Returned v w' => Returned (Some (now w', Fulfilled v)) (set_now (now w) w')
  | Thrown r w' => Returned (Some (now w', Rejected r)) (set_now (now w) w')
  | Pending w' => Returned None (set_now (now w) w')
  end.
Proof. reflexivity. Qed.

(** C7.  For every identifier the continuation of the callback form is
    invoked, 50 ms later, with arguments of which exactly one is populated:
    no error and a record, or an error and no record.  The result form
    settles at that instant: fulfilled with exactly the record the
    continuation received, or rejected with exactly the error it received. *)
Theorem callback_bridge (userId : Z) (w : World) :
  exists (error : option Error) (user : option User),
    ((error = None /\ exists record, user = Some record) \/
     (user = None /\ exists e, error = Some e)) /\
    (forall (R : Type) (callback : option Error -> option User -> Async R),
       fetchUserCallback userId callback w =
       setTimeout (callback error user) 50 w) /\
    promisifyCallback userId w =
      Returned
        (Some (now w + 50,
               match error with
               | Some e => Rejected (RError e)
               | None => Fulfilled user
               end))
        w.
Proof.
  unfold promisifyCallback, new_Promise, fetchUserCallback.
  destruct (userId =? 1); [|destruct (userId =? 2)].
  - exists None, (Some user1). split; [left; split; eauto|].
    split; [reflexivity|]. rewrite setTimeout_run. destruct w; reflexivity.
  - exists None, (Some user2). split; [left; split; eauto|].
    split; [reflexivity|]. rewrite setTimeout_run. destruct w; reflexivity.
  - exists (Some (new_Error "User not found")), None.
    split; [right; split; eauto|].
    split; [reflexivity|]. rewrite setTimeout_run. destruct w; reflexivity.
Qed.

(** ** The race *)

Lemma raceConditionTest_run (operation1 operation2 : Operation string)
    (w : World) :
  raceConditionTest operation1 operation2 w =
  (first <-
     Promise_race
       [match operation1 (calls w) (now w) with
        | Some (latency, o) => Some (now w + Z.of_N latency, o)
        | None => None
        end;
        match operation2 (S (calls w)) (now w) with
        | Some (latency, o) => Some (now w + Z.of_N latency, o)
        | None => None
        end] ;;
   await first) (invoked (invoked w)).
Proof. reflexivity. Qed.

(** C8.  The race settles as the operation that settles first does, be it
    with a success or with a failure, and at that instant; what the other
    operation settles with later, if it settles at all, plays no part. *)
Theorem raceConditionTest_first (operation1 operation2 : Operation string)
    (w : World) :
  (forall latency1 o1,
     operation1 (calls w) (now w) = Some (latency1, o1) ->
     (operation2 (S (calls w)) (now w) = None \/
      exists latency2 o2,
        operation2 (S (calls w)) (now w) = Some (latency2, o2) /\
        (latency1 < latency2)%N) ->
     raceConditionTest operation1 operation2 w =
     settlement o1 (set_now (now w + Z.of_N latency1) (invoked (invoked w)))) /\
  (forall latency2 o2,
     operation2 (S (calls w)) (now w) = Some (latency2, o2) ->
     (operation1 (calls w) (now w) = None \/
      exists latency1 o1,
        operation1 (calls w) (now w) = Some (latency1, o1) /\
        (latency2 < latency1)%N) ->
     raceConditionTest operation1 operation2 w =
     settlement o2 (set_now (now w + Z.of_N latency2) (invoked (invoked w)))).
Proof.
  split.
  - intros latency1 o1 H1 H2. rewrite raceConditionTest_run, H1.
    rewrite bind_run. unfold Promise_race.
    rewrite bind_run. cbn [clock now invoked]. cbn [ret Monad_M].
    destruct H2 as [H2 | [latency2 [o2 [H2 Hlt]]]]; rewrite H2.
    + unfold run_jobs, schedule.
      cbn [flat_map app fold_left enqueue run settle].
      rewrite Z.max_r by lia.
      rewrite await_run by (cbn [now invoked]; lia).
      destruct o1; reflexivity.
    + unfold run_jobs, schedule.
      cbn [flat_map app fold_left enqueue at_instant].
      rewrite !Z.max_r by lia.
      destruct (Z.ltb_spec (now w + Z.of_N latency2) (now w + Z.of_N latency1));
        [lia|].
      cbn [fold_left run settle].
      rewrite await_run by (cbn [now invoked]; lia).
      destruct o1; reflexivity.
  - intros latency2 o2 H2 H1. rewrite raceConditionTest_run, H2.
    rewrite bind_run. unfold Promise_race.
    rewrite bind_run. cbn [clock now invoked]. cbn [ret Monad_M].
    destruct H1 as [H1 | [latency1 [o1 [H1 Hlt]]]]; rewrite H1.
    + unfold run_jobs, schedule.
      cbn [flat_map app fold_left enqueue run settle].
      rewrite Z.max_r by lia.
      rewrite await_run by (cbn [now invoked]; lia).
      destruct o2; reflexivity.
    + unfold run_jobs, schedule.
      cbn [flat_map app fold_left enqueue at_instant].
      rewrite !Z.max_r by lia.
      destruct (Z.ltb_spec (now w + Z.of_N latency2) (now w + Z.of_N latency1));
        [|lia].
      cbn [fold_left run settle].
      rewrite await_run by (cbn [now invoked]; lia).
      destruct o2; reflexivity.
Qed.

Lemma raceConditionTest_first_witness :
  raceConditionTest fast_operation slow_operation world0 =
    Returned "fast result"
      {| now := 50; console := []; calls := 2; timers := [] |} /\
  raceConditionTest slow_operation error_operation world0 =
    Thrown (RError (new_Error "error occurred"))
      {| now := 50; console := []; calls := 2; timers := [] |}.
Proof.
  split.
  - apply (proj1 (raceConditionTest_first fast_operation slow_operation world0)
             50%N (Fulfilled "fast result") eq_refl).
    right. exists 200%N, (Fulfilled "slow result"). split; reflexivity.
  - apply (proj2 (raceConditionTest_first slow_operation error_operation world0)
             50%N (Rejected (RError (new_Error "error occurred"))) eq_refl).
    right. exists 200%N, (Fulfilled "slow result"). split; reflexivity.
Defined.

(** ** The resource-scoped operation *)

Lemma complexAsyncOperation_failing (w : World) :
  complexAsyncOperation true w =
  Thrown (RError (new_Error "작업 실패"))
    {| now := now w + 50 + 25;
       console := (console w ++ [cleanup_log (now w + 50 + 25)])%list;
       calls := calls w;
       timers := timers w |}.
Proof.
  destruct w as [t0 out n ts].
  cbv -[Z.add Z.max app].
  rewrite !Z.max_r by lia. reflexivity.
Qed.

Lemma complexAsyncOperation_succeeding (w : World) :
  complexAsyncOperation false w =
  Returned "작업 완료: allocated resource"
    {| now := now w + 50 + 100 + 25;
       console := (console w ++ [cleanup_log (now w + 50 + 100 + 25)])%list;
       calls := calls w;
       timers := timers w |}.
Proof.
  destruct w as [t0 out n ts].
  cbv -[Z.add Z.max app].
  rewrite !Z.max_r by lia. reflexivity.
Qed.

(** C5.  For both values of the failure flag the call adds exactly one
    entry to the console, the cleanup line naming the resource, stamped no
    later than the instant at which the call settles; with the flag set the
    caller gets the error "작업 실패" of the main step, otherwise the
    result of the main step. *)
Theorem complexAsyncOperation_cleanup (shouldFail : bool) (w : World) :
  exists w' entry,
    complexAsyncOperation shouldFail w =
      (if shouldFail then Thrown (RError (new_Error "작업 실패")) w'
       else Returned "작업 완료: allocated resource" w') /\
    console w' = (console w ++ [entry])%list /\
    level entry = LevelLog /\
    args entry = [AString "리소스 정리: allocated resource"] /\
    now w <= stamp entry <= now w'.
Proof.
  destruct shouldFail.
  - rewrite complexAsyncOperation_failing.
    eexists. exists (cleanup_log (now w + 50 + 25)).
    split; [reflexivity|]. cbn. repeat split; lia.
  - rewrite complexAsyncOperation_succeeding.
    eexists. exists (cleanup_log (now w + 50 + 100 + 25)).
    split; [reflexivity|]. cbn. repeat split; lia.
Qed.

(** ** The streaming producer *)

Lemma generateUserStream_next_valid (userId : Z) (user : User) (rest : list Z)
    (w : World) :
  lookup userId = Fulfilled user ->
  generateUserStream_next (userId :: rest) w =
  Returned (IterValue user, rest) (set_now (now w + 100) w).
Proof.
  intros H. cbn [generateUserStream_next].
  rewrite catch_run, bind_run, fetchUserData_run, bind_run, await_run by lia.
  rewrite H. reflexivity.
Qed.

Lemma generateUserStream_next_invalid (userId : Z) (rest : list Z) (w : World) :
  lookup userId = Rejected (RError (new_Error "User not found")) ->
  generateUserStream_next (userId :: rest) w =
  generateUserStream_next rest
    {| now := now w + 100;
       console := (console w ++ [diagnostic (now w + 100) userId])%list;
       calls := calls w;
       timers := timers w |}.
Proof.
  intros H. cbn [generateUserStream_next].
  rewrite catch_run, bind_run, fetchUserData_run, bind_run, await_run by lia.
  rewrite H. reflexivity.
Qed.

Lemma lookup_cases (userId : Z) :
  (exists user, lookup userId = Fulfilled user) \/
  lookup userId = Rejected (RError (new_Error "User not found")).
Proof.
  unfold lookup.
  destruct (userId =? 1); [left; eauto|].
  destruct (userId =? 2); [left; eauto | right; reflexivity].
Qed.

(** The consumer loop never runs out of rounds: it ends with the records
    of the known identifiers, and one diagnostic per unknown one. *)
Lemma for_await_push_run (userIds : list Z) :
  forall (rounds : nat) (users : list User) (w : World),
    (List.length userIds < rounds)%nat ->
    exists w',
      for_await_push rounds userIds users w =
        Returned (users ++ known_records userIds)%list w' /\
      List.length (console w') =
        (List.length (console w) + List.length (unknown_ids userIds))%nat.
Proof.
  induction userIds as [|userId rest IH]; intros rounds users w Hrounds;
    destruct rounds as [|rounds]; try (cbn in Hrounds; lia).
  - exists w. cbn. rewrite app_nil_r, Nat.add_0_r. split; reflexivity.
  - cbn [List.length] in Hrounds.
    destruct (lookup_cases userId) as [[user Huser] | Hunknown].
    + destruct (IH rounds (push users user) (set_now (now w + 100) w))
        as [w' [Hrun Hconsole]]; [lia|].
      exists w'. cbn [for_await_push].
      rewrite bind_run, (generateUserStream_next_valid userId user) by assumption.
      rewrite Hrun. unfold known_records, unknown_ids in *.
      cbn [flat_map filter]. rewrite Huser. unfold push.
      rewrite <- app_assoc. split; [reflexivity | exact Hconsole].
    + match type of (generateUserStream_next_invalid userId rest w Hunknown) with
      | _ = generateUserStream_next rest ?w1 =>
          destruct (IH (S rounds) users w1) as [w' [Hrun Hconsole]]; [lia|]
      end.
      exists w'. cbn [for_await_push] in *.
      rewrite bind_run in *.
      rewrite (generateUserStream_next_invalid userId rest w Hunknown).
      split.
      * rewrite Hrun. unfold known_records. cbn [flat_map].
        rewrite Hunknown. reflexivity.
      * rewrite Hconsole. cbn [console]. unfold unknown_ids.
        cbn [filter]. rewrite Hunknown.
        rewrite length_app. cbn [List.length]. lia.
Qed.

Lemma collect_users_run (userIds : list Z) (w : World) :
  exists w',
    collect_users userIds w = Returned (known_records userIds) w' /\
    List.length (console w') =
      (List.length (console w) + List.length (unknown_ids userIds))%nat.
Proof.
  apply (for_await_push_run userIds (S (List.length userIds)) [] w). lia.
Qed.

(** C6.  Over the identifiers 1, 999, 2 the stream hands the consumer
    exactly two records, those of 1 and of 2 in that order, and writes
    exactly one diagnostic to the error console, the one for 999.  The
    [next()] call that meets 999 does not throw: it goes on to 2 and
    returns its record. *)
Theorem generateUserStream_skips_failure (w : World) :
  collect_users [1; 999; 2] w =
    Returned
      [{| id := 1; name := "John Doe"; email := "john@example.com" |};
       {| id := 2; name := "Jane Smith"; email := "jane@example.com" |}]
      {| now := now w + 100 + 100 + 100;
         console := (console w ++ [diagnostic (now w + 100 + 100) 999])%list;
         calls := calls w;
         timers := timers w |} /\
  generateUserStream_next [999; 2] w =
    Returned
      (IterValue {| id := 2; name := "Jane Smith"; email := "jane@example.com" |},
       [])
      {| now := now w + 100 + 100;
         console := (console w ++ [diagnostic (now w + 100) 999])%list;
         calls := calls w;
         timers := timers w |}.
Proof.
  split.
  - unfold collect_users. cbn [List.length for_await_push].
    rewrite bind_run, (generateUserStream_next_valid 1 user1) by reflexivity.
    cbn [for_await_push].
    rewrite bind_run, (generateUserStream_next_invalid 999) by reflexivity.
    rewrite (generateUserStream_next_valid 2 user2) by reflexivity.
    cbn [for_await_push].
    rewrite bind_run. reflexivity.
  - rewrite (generateUserStream_next_invalid 999) by reflexivity.
    rewrite (generateUserStream_next_valid 2 user2) by reflexivity.
    reflexivity.
Qed.

(** * Further properties of the asynchronous utilities *)

(** ** Latency of the aggregators *)

Lemma processMultipleUsers_loop_latency (userIds : list Z) :
  forall (results : list string) (w : World),
    processMultipleUsers_loop userIds results w =
    Returned (results ++ map aggregated userIds)%list
      (set_now (now w + 100 * Z.of_nat (List.length userIds)) w).
Proof.
  induction userIds as [|userId rest IH]; intros results w.
  - cbn. rewrite app_nil_r, Z.add_0_r, set_now_now. reflexivity.
  - cbn [processMultipleUsers_loop].
    rewrite bind_run, sequential_item, IH.
    unfold push. rewrite <- app_assoc. cbn [now set_now List.length map app].
    f_equal. unfold set_now. cbn [now console calls timers]. f_equal. lia.
Qed.

Lemma gather_same_instant {A T} (t0 t : Time) (g : A -> T) (x : A) (l : list A) :
  t0 <= t ->
  gather t0 (@map A (Promise T) (fun x => Some (t, Fulfilled (g x))) (x :: l))
  = Some (t, map g (x :: l)).
Proof.
  intros Ht. revert x. induction l as [|y rest IH]; intros x.
  - cbn. rewrite Z.max_l by assumption. reflexivity.
  - specialize (IH y). cbn [map gather] in *. rewrite IH.
    rewrite Z.max_id. reflexivity.
Qed.

Lemma processUsersParallel_latency (userIds : list Z) (w : World) :
  processUsersParallel userIds w =
  Returned (map aggregated userIds)
    (set_now (now w + match userIds with [] => 0 | _ :: _ => 100 end) w).
Proof.
  unfold processUsersParallel. rewrite bind_run.
  rewrite (Array_map_run (B := Promise string) _
             (fun w userId => Some (now w + 100, Fulfilled (aggregated userId))))
    by (intros; apply parallel_item).
  cbv beta. rewrite bind_run. unfold Promise_all.
  rewrite first_rejection_fulfilled.
  destruct userIds as [|userId rest].
  - cbn. rewrite Z.max_id, Z.add_0_r. reflexivity.
  - rewrite gather_same_instant by lia.
    rewrite await_run by lia. reflexivity.
Qed.

(** X1.  The sequential aggregator settles 100 ms per identifier after the
    call; the parallel aggregator settles 100 ms after the call for every
    non-empty input, and at once for the empty one.  Neither writes to the
    console. *)
Theorem aggregators_latency (userIds : list Z) (w : World) :
  processMultipleUsers userIds w =
    Returned (map aggregated userIds)
      (set_now (now w + 100 * Z.of_nat (List.length userIds)) w) /\
  processUsersParallel userIds w =
    Returned (map aggregated userIds)
      (set_now (now w + match userIds with [] => 0 | _ :: _ => 100 end) w).
Proof.
  split.
  - apply processMultipleUsers_loop_latency.
  - apply processUsersParallel_latency.
Qed.

(** X2.  With two identifiers or more the parallel aggregator settles
    strictly before the sequential one, on the same output. *)
Theorem parallel_is_faster (userIds : list Z) (w : World) :
  (2 <= List.length userIds)%nat ->
  exists results w_sequential w_parallel,
    processMultipleUsers userIds w = Returned results w_sequential /\
    processUsersParallel userIds w = Returned results w_parallel /\
    now w_parallel < now w_sequential.
Proof.
  intros Hlen.
  do 3 eexists.
  split; [exact (processMultipleUsers_loop_latency userIds [] w)|].
  split; [exact (processUsersParallel_latency userIds w)|].
  destruct userIds as [|userId rest]; cbn [List.length] in *; [lia|].
  cbn [now set_now]. lia.
Qed.

Lemma parallel_is_faster_witness :
  exists results w_sequential w_parallel,
    processMultipleUsers [1; 2] world0 = Returned results w_sequential /\
    processUsersParallel [1; 2] world0 = Returned results w_parallel /\
    now w_parallel < now w_sequential.
Proof.
  apply (parallel_is_faster [1; 2] world0). apply le_n.
Defined.

(** ** Time line and edge cases of the retry wrapper *)

Lemma backoff_within_range (attempt : Z) :
  1 <= attempt <= 25 ->
  timer_delay (100 * 2 ^ (attempt - 1)) = 100 * 2 ^ (attempt - 1).
Proof.
  intros H.
  assert (Hlow : 0 < 2 ^ (attempt - 1)) by (apply Z.pow_pos_nonneg; lia).
  assert (Hhigh : 2 ^ (attempt - 1) <= 2 ^ 24)
    by (apply Z.pow_le_mono_r; lia).
  change (2 ^ 24) with 16777216 in Hhigh.
  unfold timer_delay.
  destruct (Z.leb_spec 1 (100 * 2 ^ (attempt - 1))); [|lia].
  destruct (Z.leb_spec (100 * 2 ^ (attempt - 1)) 2147483647); [|lia].
  reflexivity.
Qed.

Section RetryTimeline.

Context {T : Type} (operation : Operation T) (maxRetries : Z) (latency : N).

Hypothesis always_fails :
  forall k t, exists r, operation k t = Some (latency, Rejected r).

(** [j] failed attempts starting with attempt number [attempt]: [j]
    invocations, [j] latencies and the backoff waits that double from
    [100 * 2 ^ (attempt - 1)] on. *)
Lemma fetchWithRetry_loop_timeline (j : nat) :
  forall (attempt : Z) (lastError : Reason) (w : World),
    1 <= attempt ->
    attempt + Z.of_nat j <= maxRetries ->
    attempt + Z.of_nat j <= 26 ->
    exists lastError' w',
      fetchWithRetry_loop operation maxRetries
        (Z_range attempt maxRetries) lastError w =
      fetchWithRetry_loop operation maxRetries
        (Z_range (attempt + Z.of_nat j) maxRetries) lastError' w' /\
      calls w' = (calls w + j)%nat /\
      now w' =
        now w + Z.of_nat j * Z.of_N latency
        + 100 * (2 ^ (attempt + Z.of_nat j - 1) - 2 ^ (attempt - 1)).
Proof.
  induction j as [|j IH]; intros attempt lastError w Hlow Hmax Hrange.
  - exists lastError, w. rewrite Z.add_0_r, Nat.add_0_r.
    repeat split. lia.
  - destruct (always_fails (calls w) (now w)) as [r Hr].
    rewrite Z_range_cons by lia.
    rewrite (fetchWithRetry_loop_retry _ _ _ _ _ _ latency r Hr) by lia.
    rewrite backoff_within_range by lia.
    match goal with
    | |- context [fetchWithRetry_loop _ _ (Z_range (attempt + 1) _) r ?w1] =>
        destruct (IH (attempt + 1) r w1)
          as [lastError' [w' [Hrun [Hcalls Hnow]]]]; try lia
    end.
    exists lastError', w'. rewrite Hrun. split; [|split].
    + do 2 f_equal. lia.
    + rewrite Hcalls. cbn [calls set_now invoked]. lia.
    + rewrite Hnow. cbn [now set_now invoked].
      replace (attempt + 1 + Z.of_nat j - 1) with (attempt + Z.of_nat (S j) - 1)
        by lia.
      replace (attempt + 1 - 1) with (Z.succ (attempt - 1)) by lia.
      rewrite Z.pow_succ_r by lia. lia.
Qed.

End RetryTimeline.

(** X3.  Exponential backoff.  For an operation that fails on every call
    after the same latency, and a budget of 1 to 26 attempts, the wrapper
    throws after [maxRetries] latencies plus the waits 100, 200, 400, ...
    between the attempts, [100 * (2 ^ (maxRetries - 1) - 1)] ms in all:
    there is no wait before the first attempt nor after the last. *)
Theorem fetchWithRetry_backoff_total {T} (operation : Operation T)
    (maxRetries : Z) (latency : N) (w : World) :
  1 <= maxRetries <= 26 ->
  (forall k t, exists e,
     operation k t = Some (latency, Rejected (RError e))) ->
  exists e w',
    fetchWithRetry operation maxRetries w =
      Thrown
        (RError (new_Error
           ("최대 재시도 횟수 초과 (" ++ Number_toString maxRetries
              ++ "회): " ++ message e)))
        w' /\
    now w' =
      now w + maxRetries * Z.of_N latency + 100 * (2 ^ (maxRetries - 1) - 1).
Proof.
  intros Hmax Hfail.
  destruct (fetchWithRetry_loop_timeline operation maxRetries latency)
    with (j := Z.to_nat (maxRetries - 1)) (attempt := 1)
         (lastError := RUndefined) (w := w)
    as [lastError' [w' [Hrun [Hcalls Hnow]]]]; try lia.
  { intros k t. destruct (Hfail k t) as [e He]. eauto. }
  destruct (Hfail (calls w') (now w')) as [e He].
  exists e, (set_now (now w' + Z.of_N latency) (invoked w')).
  unfold fetchWithRetry. rewrite Hrun.
  replace (1 + Z.of_nat (Z.to_nat (maxRetries - 1))) with maxRetries in * by lia.
  rewrite Z_range_cons by lia.
  rewrite (fetchWithRetry_loop_exhausted _ _ _ _ _ latency e He).
  split; [reflexivity|].
  cbn [now set_now invoked]. rewrite Hnow.
  rewrite Z2Nat.id by lia.
  change (2 ^ (1 - 1)) with 1. lia.
Qed.

Lemma fetchWithRetry_backoff_total_witness :
  exists e w',
    fetchWithRetry failing_operation 3 world0 =
      Thrown
        (RError (new_Error
           ("최대 재시도 횟수 초과 (" ++ Number_toString 3
              ++ "회): " ++ message e)))
        w' /\
    now w' = now world0 + 3 * Z.of_N 0 + 100 * (2 ^ (3 - 1) - 1).
Proof.
  apply (fetchWithRetry_backoff_total failing_operation 3 0%N world0).
  - split; discriminate.
  - intros k t. exists (new_Error "persistent failure"). reflexivity.
Defined.

(** X4.  The retry wrapper has no deadline of its own: if, after some
    failed attempts, an attempt never settles, the wrapper never settles
    either, and makes no further invocation. *)
Theorem fetchWithRetry_hangs {T} (operation : Operation T)
    (maxRetries : Z) (w : World) (k : nat) :
  Z.of_nat k < maxRetries ->
  (forall i, (i < k)%nat -> forall t,
     exists latency r,
       operation (calls w + i)%nat t = Some (latency, Rejected r)) ->
  (forall t, operation (calls w + k)%nat t = None) ->
  exists w',
    fetchWithRetry operation maxRetries w = Pending w' /\
    calls w' = (calls w + k + 1)%nat.
Proof.
  intros Hk Hfail Hhang.
  destruct (fetchWithRetry_loop_failures operation maxRetries k 1
              RUndefined w ltac:(lia) Hfail)
    as [lastError' [w' [Hrun Hcalls]]].
  exists (invoked w').
  unfold fetchWithRetry. rewrite Hrun, Z_range_cons by lia.
  cbn [fetchWithRetry_loop].
  rewrite catch_run, attempt_run, Hcalls, Hhang.
  split; [reflexivity|]. cbn [calls invoked]. lia.
Qed.

(** An operation that fails once and then never settles. *)
Lemma fetchWithRetry_hangs_witness :
  exists w',
    fetchWithRetry
      (fun k _ =>
         match k with
         | O => Some (0%N, Rejected (RError (new_Error "first failure")))
         | _ => @None (N * Outcome string)
         end)
      3 world0 = Pending w' /\
    calls w' = 2%nat.
Proof.
  apply (fetchWithRetry_hangs _ 3 world0 1%nat).
  - reflexivity.
  - intros i Hi t. destruct i as [|i].
    + exists 0%N, (RError (new_Error "first failure")). reflexivity.
    + exfalso. apply (Nat.nlt_0_r i). apply Nat.succ_lt_mono. exact Hi.
  - intros t. reflexivity.
Defined.

(** X5.  The cast [error as Error] is not checked: when every attempt
    fails and the last one rejects with [undefined], reading its [message]
    throws, and the wrapper ends -- after exactly [maxRetries] invocations
    -- with a [TypeError] instead of the error that reports the attempts. *)
Theorem fetchWithRetry_undefined_failure {T} (operation : Operation T)
    (maxRetries : Z) (w : World) :
  1 <= maxRetries ->
  (forall i, Z.of_nat i < maxRetries - 1 -> forall t,
     exists latency r,
       operation (calls w + i)%nat t = Some (latency, Rejected r)) ->
  (forall t,
     exists latency,
       operation (calls w + Z.to_nat (maxRetries - 1))%nat t =
       Some (latency, Rejected RUndefined)) ->
  exists e w',
    fetchWithRetry operation maxRetries w = Thrown (RError e) w' /\
    err_name e = "TypeError" /\
    calls w' = (calls w + Z.to_nat maxRetries)%nat.
Proof.
  intros Hmax Hfail Hlast.
  destruct (fetchWithRetry_loop_failures operation maxRetries
              (Z.to_nat (maxRetries - 1)) 1 RUndefined w ltac:(lia))
    as [lastError' [w' [Hrun Hcalls]]].
  { intros i Hi t. apply Hfail. lia. }
  destruct (Hlast (now w')) as [latency Hl].
  do 2 eexists.
  unfold fetchWithRetry. rewrite Hrun.
  replace (1 + Z.of_nat (Z.to_nat (maxRetries - 1))) with maxRetries by lia.
  rewrite Z_range_cons by lia.
  cbn [fetchWithRetry_loop].
  rewrite catch_run, attempt_run, Hcalls, Hl, Z.eqb_refl.
  split; [reflexivity|]. split; [reflexivity|].
  cbn [calls set_now invoked]. lia.
Qed.

Lemma fetchWithRetry_undefined_failure_witness :
  exists e w',
    fetchWithRetry (fun _ _ => Some (0%N, @Rejected string RUndefined)) 2 world0
      = Thrown (RError e) w' /\
    err_name e = "TypeError" /\
    calls w' = 2%nat.
Proof.
  apply (fetchWithRetry_undefined_failure _ 2 world0).
  - discriminate.
  - intros i _ t. exists 0%N, RUndefined. reflexivity.
  - intros t. exists 0%N. reflexivity.
Defined.

(** ** Bounds of the timeout wrapper and of the race *)




(** ** The stream over any input *)



Lemma generateUserStream_next_skips (skipped : list Z) :
  forall (remaining : list Z) (w : World),
    Forall (fun userId => userId <> 1 /\ userId <> 2) skipped ->
    exists w',
      generateUserStream_next (skipped ++ remaining)%list w =
        generateUserStream_next remaining w' /\
      now w' = now w + 100 * Z.of_nat (List.length skipped) /\
      List.length (console w') =
        (List.length (console w) + List.length skipped)%nat.
Proof.
  induction skipped as [|userId rest IH]; intros remaining w Hskipped.
  - exists w. cbn. repeat split; lia.
  - inversion Hskipped as [|? ? [H1 H2] Hrest]; subst.
    assert (Hunknown :
      lookup userId = Rejected (RError (new_Error "User not found"))).
    { unfold lookup. other_identifier userId. reflexivity. }
    cbn [app].
    rewrite (generateUserStream_next_invalid userId _ w Hunknown).
    match goal with
    | |- context [generateUserStream_next (rest ++ remaining)%list ?w1] =>
        destruct (IH remaining w1 Hrest) as [w' [Hrun [Hnow Hconsole]]]
    end.
    exists w'. split; [exact Hrun|].
    cbn [now console] in *. rewrite length_app in Hconsole.
    cbn [List.length] in *. split; lia.
Qed.

(** X9.  The stream is lazy.  One [next()] looks up the identifiers in
    turn, writes a diagnostic for each one it has to skip, and stops at
    the first identifier that is 1 or 2: it yields that record and leaves
    the identifiers after it untouched.  If no such identifier is left, it
    reports the end of the stream. *)
Theorem generateUserStream_next_lazy (skipped : list Z) (w : World) :
  Forall (fun userId => userId <> 1 /\ userId <> 2) skipped ->
  (forall userId rest,
     userId = 1 \/ userId = 2 ->
     exists user w',
       generateUserStream_next (skipped ++ userId :: rest)%list w =
         Returned (IterValue user, rest) w' /\
       id user = userId /\
       now w' = now w + 100 * Z.of_nat (List.length skipped + 1) /\
       List.length (console w') =
         (List.length (console w) + List.length skipped)%nat) /\
  (exists w',
     generateUserStream_next skipped w =
       Returned (@IterDone User, []) w' /\
     List.length (console w') =
       (List.length (console w) + List.length skipped)%nat).
Proof.
  intros Hskipped. split.
  - intros userId rest Hvalid.
    destruct (generateUserStream_next_skips skipped (userId :: rest) w Hskipped)
      as [w1 [Hrun [Hnow Hconsole]]].
    assert (Huser : exists user, lookup userId = Fulfilled user /\ id user = userId).
    { destruct Hvalid; subst; [exists user1 | exists user2]; split; reflexivity. }
    destruct Huser as [user [Hlookup Hid]].
    exists user, (set_now (now w1 + 100) w1).
    rewrite Hrun, (generateUserStream_next_valid userId user) by assumption.
    split; [reflexivity|]. split; [exact Hid|].
    cbn [now console set_now]. split; lia.
  - destruct (generateUserStream_next_skips skipped [] w Hskipped)
      as [w1 [Hrun [Hnow Hconsole]]].
    exists w1. rewrite app_nil_r in Hrun. rewrite Hrun.
    split; [reflexivity | exact Hconsole].
Qed.

Lemma generateUserStream_next_lazy_witness :
  (exists user w',
     generateUserStream_next [999; 7; 2; 1; 5] world0 =
       Returned (IterValue user, [1; 5]) w' /\
     id user = 2 /\
     now w' = 300 /\
     List.length (console w') = 2%nat) /\
  (exists w',
     generateUserStream_next [999; 7] world0 = Returned (@IterDone User, []) w' /\
     List.length (console w') = 2%nat).
Proof.
  assert (H : Forall (fun userId => userId <> 1 /\ userId <> 2) [999; 7]).
  { repeat constructor; discriminate. }
  split.
  - exact (proj1 (generateUserStream_next_lazy [999; 7] world0 H) 2 [1; 5]
             (or_intror eq_refl)).
  - exact (proj2 (generateUserStream_next_lazy [999; 7] world0 H)).
Defined.

(** ** The two forms of the lookup *)

(** X10.  The callback-based lookup and the promise-based lookup agree on
    every identifier: [promisifyCallback] settles with the same record, or
    is rejected with the same error, as [fetchUserData], and does so 50 ms
    after the call where [fetchUserData] takes 100 ms. *)
Theorem promisifyCallback_agrees (userId : Z) (w : World) :
  exists o,
    fetchUserData userId w = Returned (Some (now w + 100, o)) w /\
    promisifyCallback userId w =
      Returned
        (Some (now w + 50,
               match o with
               | Fulfilled user => Fulfilled (Some user)
               | Rejected r => Rejected r
               end))
        w.
Proof.
  exists (lookup userId). split; [apply fetchUserData_run|].
  unfold promisifyCallback, new_Promise, fetchUserCallback, lookup.
  rewrite setTimeout_run.
  destruct (userId =? 1); [|destruct (userId =? 2)]; destruct w; reflexivity.
Qed.

(** ** The conditional call *)

(** X11.  [conditionalAsync] never fails and never writes to the console.
    With the condition false it settles at the instant of the call, no
    timer involved; with the condition true it settles exactly 100 ms
    later. *)
Theorem conditionalAsync_latency (condition : bool) (w : World) :
  conditionalAsync condition w =
  Returned (if condition then "비동기 결과" else "동기 결과")
    (set_now (now w + (if condition then 100 else 0)) w).
Proof.
  destruct condition.
  - unfold conditionalAsync. rewrite bind_run.
    unfold new_Promise, setTimeout, start, after.
    cbn [ret Monad_M now set_now].
    rewrite await_run by (cbn; lia).
    reflexivity.
  - cbn. rewrite Z.add_0_r, set_now_now. reflexivity.
Qed.

(** * Properties of the user service *)

Import Service.

(** Expose the calls a service method makes, in order. *)
Ltac service_run :=
  unfold getUser, createUser, deleteUser, getActiveUsers,
    logger_info, logger_warn, logger_error, record, await_call, sync_call,
    Date_now;
  cbn [bind ret catch raise Monad_M Exc_M trace clock].



(** X13.  When the e-mail service does not accept the address,
    [createUser] throws "유효하지 않은 이메일 주소" at once: beyond the
    validation and two log lines it calls nothing -- the database is not
    touched and no e-mail is sent. *)
Theorem createUser_invalid_email (this : UserService) (userData : UserData)
    (s : State) :
  let attempt := Logger_info ("사용자 생성 시도: " ++ data_name userData) in
  EmailService.validateEmail (emailService this) (trace s ++ [attempt])%list
    (data_email userData) = false ->
  createUser this userData s =
    Thrown (RError (new_Error "유효하지 않은 이메일 주소"))
      {| clock := clock s;
         trace :=
           (trace s ++
            [attempt;
             EmailService_validateEmail (data_email userData);
             Logger_error "이메일 유효성 검사 실패"
               (RError (new_Error "유효하지 않은 이메일 주소"))])%list |}.
Proof.
  intros attempt H. subst attempt. service_run. rewrite H.
  cbn [negb bind raise Monad_M Exc_M trace clock].
  rewrite <- !app_assoc. reflexivity.
Qed.

Lemma createUser_invalid_email_witness :
  exists s',
    createUser (mkUserService mock_database strict_emailService) carol_data state0
    = Thrown (RError (new_Error "유효하지 않은 이메일 주소")) s'.
Proof.
  eexists.
  exact (createUser_invalid_email
           (mkUserService mock_database strict_emailService) carol_data state0
           eq_refl).
Defined.

Section CreateUser.

Context (this : UserService) (userData : UserData) (s : State).

Hypothesis accepted :
  EmailService.validateEmail (emailService this)
    (trace s ++ [Logger_info ("사용자 생성 시도: " ++ data_name userData)])%list
    (data_email userData) = true.

Lemma createUser_save_rejected (latency : N) (error : Reason) :
  Database.saveUser (database this)
    (trace s ++
     [Logger_info ("사용자 생성 시도: " ++ data_name userData);
      EmailService_validateEmail (data_email userData)])%list
    (newUser_of userData s) =
    Some (latency, Rejected error) ->
  createUser this userData s =
    Thrown error
      {| clock := clock s + Z.of_N latency;
         trace :=
           (trace s ++ creation_calls userData s ++
            [Logger_error ("사용자 생성 실패: " ++ data_name userData) error])%list
      |}.
Proof.
  intros H. service_run. rewrite accepted.
  cbn [negb bind ret Monad_M Exc_M trace clock].
  rewrite <- !app_assoc. cbn [app]. unfold newUser_of in H. rewrite H.
  cbn [trace clock]. unfold creation_calls, newUser_of.
  rewrite <- !app_assoc. reflexivity.
Qed.

Lemma createUser_email_settled (latency1 latency2 : N) (savedUser : User)
    (o : Outcome bool) :
  Database.saveUser (database this)
    (trace s ++
     [Logger_info ("사용자 생성 시도: " ++ data_name userData);
      EmailService_validateEmail (data_email userData)])%list
    (newUser_of userData s) =
    Some (latency1, Fulfilled savedUser) ->
  EmailService.sendEmail (emailService this)
    (trace s ++ creation_calls userData s)%list
    (email savedUser) "환영합니다!"
    ("안녕하세요 " ++ name savedUser ++ "님, 회원가입을 축하합니다!") =
    Some (latency2, o) ->
  createUser this userData s =
    match o with
    | Fulfilled _ =>
        Returned savedUser
          {| clock := clock s + Z.of_N latency1 + Z.of_N latency2;
             trace :=
               (trace s ++ creation_calls userData s ++
                [welcome savedUser;
                 Logger_info ("사용자 생성 성공: " ++ name savedUser)])%list |}
    | Rejected error =>
        Thrown error
          {| clock := clock s + Z.of_N latency1 + Z.of_N latency2;
             trace :=
               (trace s ++ creation_calls userData s ++
                [welcome savedUser;
                 Logger_error
                   ("사용자 생성 실패: " ++ data_name userData) error])%list |}
    end.
Proof.
  intros Hsave Hsend. service_run. rewrite accepted.
  cbn [negb bind ret Monad_M Exc_M trace clock].
  rewrite <- !app_assoc. cbn [app]. unfold newUser_of in Hsave. rewrite Hsave.
  cbn [trace clock].
  unfold creation_calls, newUser_of in Hsend.
  rewrite <- !app_assoc. cbn [app]. rewrite Hsend.
  unfold creation_calls, newUser_of, welcome.
  destruct o; cbn [trace clock]; rewrite <- !app_assoc; reflexivity.
Qed.

End CreateUser.

(** X14.  With an accepted address, [createUser] saves the data under the
    identifier [Date.now()], then sends the welcome e-mail to the address
    of the record the database returned, and returns that record -- also
    when the e-mail service reports [false]: the delivery flag is not
    looked at. *)
Theorem createUser_saves_then_welcomes (this : UserService)
    (userData : UserData) (s : State) (latency1 latency2 : N)
    (savedUser : User) (sent : bool) :
  EmailService.validateEmail (emailService this)
    (trace s ++ [Logger_info ("사용자 생성 시도: " ++ data_name userData)])%list
    (data_email userData) = true ->
  Database.saveUser (database this)
    (trace s ++
     [Logger_info ("사용자 생성 시도: " ++ data_name userData);
      EmailService_validateEmail (data_email userData)])%list
    {| id := clock s;
       name := data_name userData;
       email := data_email userData;
       age := data_age userData;
       isActive := data_isActive userData |} =
    Some (latency1, Fulfilled savedUser) ->
  EmailService.sendEmail (emailService this)
    (trace s ++ creation_calls userData s)%list
    (email savedUser) "환영합니다!"
    ("안녕하세요 " ++ name savedUser ++ "님, 회원가입을 축하합니다!") =
    Some (latency2, Fulfilled sent) ->
  createUser this userData s =
    Returned savedUser
      {| clock := clock s + Z.of_N latency1 + Z.of_N latency2;
         trace :=
           (trace s ++
            [Logger_info ("사용자 생성 시도: " ++ data_name userData);
             EmailService_validateEmail (data_email userData);
             Database_saveUser
               {| id := clock s;
                  name := data_name userData;
                  email := data_email userData;
                  age := data_age userData;
                  isActive := data_isActive userData |};
             EmailService_sendEmail (email savedUser) "환영합니다!"
               ("안녕하세요 " ++ name savedUser
                  ++ "님, 회원가입을 축하합니다!");
             Logger_info ("사용자 생성 성공: " ++ name savedUser)])%list |}.
Proof.
  intros Hvalid Hsave Hsend.
  rewrite (createUser_email_settled this userData s Hvalid latency1 latency2
             savedUser (Fulfilled sent) Hsave Hsend).
  reflexivity.
Qed.

Lemma createUser_saves_then_welcomes_witness :
  createUser (mkUserService mock_database mock_emailService) carol_data state0 =
    Returned (newUser_of carol_data state0)
      {| clock := 1700000000000;
         trace :=
           (creation_calls carol_data state0 ++
            [welcome (newUser_of carol_data state0);
             Logger_info "사용자 생성 성공: Carol"])%list |}.
Proof.
  exact (createUser_saves_then_welcomes
           (mkUserService mock_database mock_emailService) carol_data state0
           0%N 0%N (newUser_of carol_data state0) true
           eq_refl eq_refl eq_refl).
Defined.

(** X15.  [createUser] does not undo a save.  If the database rejects the
    save, no e-mail is sent; if the save succeeds and sending the welcome
    e-mail is rejected, [createUser] logs and throws that rejection
    although the user has been saved, and makes no further database
    call. *)
Theorem createUser_no_rollback (this : UserService) (userData : UserData)
    (s : State) :
  EmailService.validateEmail (emailService this)
    (trace s ++ [Logger_info ("사용자 생성 시도: " ++ data_name userData)])%list
    (data_email userData) = true ->
  (forall latency error,
     Database.saveUser (database this)
       (trace s ++
        [Logger_info ("사용자 생성 시도: " ++ data_name userData);
         EmailService_validateEmail (data_email userData)])%list
       (newUser_of userData s) =
       Some (latency, Rejected error) ->
     createUser this userData s =
       Thrown error
         {| clock := clock s + Z.of_N latency;
            trace :=
              (trace s ++
               [Logger_info ("사용자 생성 시도: " ++ data_name userData);
                EmailService_validateEmail (data_email userData);
                Database_saveUser (newUser_of userData s);
                Logger_error
                  ("사용자 생성 실패: " ++ data_name userData) error])%list |})
  /\
  (forall latency1 latency2 savedUser error,
     Database.saveUser (database this)
       (trace s ++
        [Logger_info ("사용자 생성 시도: " ++ data_name userData);
         EmailService_validateEmail (data_email userData)])%list
       (newUser_of userData s) =
       Some (latency1, Fulfilled savedUser) ->
     EmailService.sendEmail (emailService this)
       (trace s ++ creation_calls userData s)%list
       (email savedUser) "환영합니다!"
       ("안녕하세요 " ++ name savedUser ++ "님, 회원가입을 축하합니다!") =
       Some (latency2, Rejected error) ->
     createUser this userData s =
       Thrown error
         {| clock := clock s + Z.of_N latency1 + Z.of_N latency2;
            trace :=
              (trace s ++
               [Logger_info ("사용자 생성 시도: " ++ data_name userData);
                EmailService_validateEmail (data_email userData);
                Database_saveUser (newUser_of userData s);
                EmailService_sendEmail (email savedUser) "환영합니다!"
                  ("안녕하세요 " ++ name savedUser
                     ++ "님, 회원가입을 축하합니다!");
                Logger_error
                  ("사용자 생성 실패: " ++ data_name userData) error])%list |}).
Proof.
  intros Hvalid. split.
  - intros latency error Hsave.
    rewrite (createUser_save_rejected this userData s Hvalid latency error Hsave).
    reflexivity.
  - intros latency1 latency2 savedUser error Hsave Hsend.
    rewrite (createUser_email_settled this userData s Hvalid latency1 latency2
               savedUser (Rejected error) Hsave Hsend).
    reflexivity.
Qed.

Lemma createUser_no_rollback_witness :
  (exists s',
     createUser (mkUserService failing_database mock_emailService)
       carol_data state0 =
     Thrown (RError (new_Error "Database error")) s') /\
  (exists s',
     createUser (mkUserService mock_database failing_emailService)
       carol_data state0 =
     Thrown (RError (new_Error "SMTP error")) s').
Proof.
  split; eexists.
  - exact (proj1 (createUser_no_rollback
                    (mkUserService failing_database mock_emailService)
                    carol_data state0 eq_refl)
             0%N (RError (new_Error "Database error")) eq_refl).
  - exact (proj2 (createUser_no_rollback
                    (mkUserService mock_database failing_emailService)
                    carol_data state0 eq_refl)
             0%N 0%N (newUser_of carol_data state0)
             (RError (new_Error "SMTP error")) eq_refl eq_refl).
Defined.



(** X17.  [getActiveUsers] returns the users of the database that are
    active, in the order of the database: every returned user is active,
    no active user is left out, and the number written to the log is the
    number of users returned. *)
Theorem getActiveUsers_filters (this : UserService) (s : State)
    (latency : N) (allUsers : list User) :
  Database.getAllUsers (database this)
    (trace s ++ [Logger_info "활성 사용자 목록 조회"])%list =
    Some (latency, Fulfilled allUsers) ->
  exists activeUsers,
    getActiveUsers this s =
      Returned activeUsers
        {| clock := clock s + Z.of_N latency;
           trace :=
             (trace s ++
              [Logger_info "활성 사용자 목록 조회";
               Database_getAllUsers;
               Logger_info
                 ("활성 사용자 "
                    ++ Number_toString (Z.of_nat (List.length activeUsers))
                    ++ "명 조회")])%list |} /\
    activeUsers = filter isActive allUsers /\
    (forall user,
       In user activeUsers <-> In user allUsers /\ isActive user = true).
Proof.
  intros H. exists (filter isActive allUsers).
  split; [|split; [reflexivity | intros user; apply filter_In]].
  service_run. rewrite H. cbn [trace clock].
  rewrite <- !app_assoc. reflexivity.
Qed.

Lemma getActiveUsers_filters_witness :
  exists activeUsers s',
    getActiveUsers (mkUserService mock_database mock_emailService) state0 =
      Returned activeUsers s' /\
    activeUsers = [alice].
Proof.
  destruct (getActiveUsers_filters
              (mkUserService mock_database mock_emailService) state0
              0%N [alice; bob] eq_refl)
    as [activeUsers [Hrun [Hfilter _]]].
  exists activeUsers. eexists. split; [exact Hrun | exact Hfilter].
Defined.

(** ** The callback utilities *)

Lemma forEach_app {S A} (before rest : list A) (callback : A -> M S unit)
    (s : S) :
  forEach (before ++ rest)%list callback s =
  match forEach before callback s with
  | Returned _ s' => forEach rest callback s'
  | Thrown r s' => Thrown r s'
  | Pending s' => Pending s'
  end.
Proof.
  revert s. induction before as [|x before IH]; intros s; [reflexivity|].
  cbn [app forEach]. rewrite !bind_run.
  destruct (callback x s); try reflexivity. apply IH.
Qed.

Lemma forEach_active {S} (users : list User) (onSuccess : User -> M S unit)
    (effect : User -> S -> S) (s : S) :
  (forall user, In user users -> forall s,
     onSuccess user s = Returned tt (effect user s)) ->
  forEach users
    (fun user => if isActive user then onSuccess user else ret tt) s =
  Returned tt
    (fold_left (fun s user => effect user s) (filter isActive users) s).
Proof.
  revert s. induction users as [|user rest IH]; intros s Hsuccess;
    [reflexivity|].
  cbn [forEach filter]. rewrite bind_run.
  destruct (isActive user).
  - rewrite Hsuccess by (left; reflexivity). cbn [fold_left].
    apply IH. intros u Hu. apply Hsuccess. right. exact Hu.
  - cbn [ret Monad_M].
    apply IH. intros u Hu. apply Hsuccess. right. exact Hu.
Qed.

(** X18.  As long as [onSuccess] returns normally, [processUsers] calls it
    on the active users, each once and in the order of the array, never on
    an inactive user, and never calls [onError]. *)
Theorem processUsers_active_only {S} (users : list User)
    (onSuccess : User -> M S unit) (onError : Reason -> M S unit)
    (effect : User -> S -> S) (s : S) :
  (forall user, In user users -> forall s,
     onSuccess user s = Returned tt (effect user s)) ->
  processUsers users onSuccess onError s =
  Returned tt
    (fold_left (fun s user => effect user s) (filter isActive users) s).
Proof.
  intros Hsuccess. unfold processUsers.
  rewrite catch_run, (forEach_active users onSuccess effect s Hsuccess).
  reflexivity.
Qed.

(** [onSuccess] appends the user's name to a list, [onError] would append
    the error's message. *)
Lemma processUsers_active_only_witness :
  processUsers [alice; bob; alice]
    (fun user names => Returned tt (names ++ [name user])%list)
    (fun error names =>
       Returned tt
         (names ++ [match error with RError e => message e | _ => "" end])%list)
    [] =
  Returned tt ["Alice"; "Alice"].
Proof.
  exact (processUsers_active_only [alice; bob; alice]
           (fun user names => Returned tt (names ++ [name user])%list)
           (fun error names =>
              Returned tt
                (names ++ [match error with RError e => message e | _ => "" end])%list)
           (fun user names => (names ++ [name user])%list) []
           (fun user _ names => eq_refl)).
Defined.

(** X19.  When [onSuccess] throws on an active user, [processUsers] stops
    there: the users after it are not visited, [onError] is called once
    with what was thrown, and [processUsers] ends as [onError] does. *)
Theorem processUsers_stops_at_failure {S} (before rest : list User)
    (user : User) (onSuccess : User -> M S unit) (onError : Reason -> M S unit)
    (effect : User -> S -> S) (s s' : S) (error : Reason) :
  (forall u, In u before -> forall s,
     onSuccess u s = Returned tt (effect u s)) ->
  isActive user = true ->
  onSuccess user
    (fold_left (fun s u => effect u s) (filter isActive before) s) =
    Thrown error s' ->
  processUsers (before ++ user :: rest)%list onSuccess onError s =
  onError error s'.
Proof.
  intros Hbefore Hactive Hthrow. unfold processUsers.
  rewrite catch_run, forEach_app.
  rewrite (forEach_active before onSuccess effect s Hbefore).
  cbn [forEach]. rewrite bind_run, Hactive, Hthrow. reflexivity.
Qed.

(** [onSuccess] throws on users over 40 and records the others. *)
Lemma processUsers_stops_at_failure_witness :
  processUsers ([alice; bob] ++ dave :: [alice; alice])%list
    (fun user names =>
       if age user >? 40
       then Thrown (RError (new_Error "callback failed")) names
       else Returned tt (names ++ [name user])%list)
    (fun error names =>
       Returned tt
         (names ++ [match error with RError e => message e | _ => "" end])%list)
    [] =
  Returned tt ["Alice"; "callback failed"].
Proof.
  apply (processUsers_stops_at_failure [alice; bob] [alice; alice] dave
           (fun user names =>
              if age user >? 40
              then Thrown (RError (new_Error "callback failed")) names
              else Returned tt (names ++ [name user])%list)
           (fun error names =>
              Returned tt
                (names ++ [match error with RError e => message e | _ => "" end])%list)
           (fun user names => (names ++ [name user])%list)
           [] ["Alice"] (RError (new_Error "callback failed"))).
  - intros u Hu names. destruct Hu as [Hu | [Hu | []]]; subst u; reflexivity.
  - reflexivity.
  - reflexivity.
Defined.

(** X20.  Age filters compose: filtering with one minimum age and then
    with another keeps exactly the users that the filter for the larger
    of the two minimum ages keeps, in the same order. *)
Theorem createUserFilter_compose (minAge1 minAge2 : Z) (users : list User) :
  filter (createUserFilter minAge1) (filter (createUserFilter minAge2) users) =
  filter (createUserFilter (Z.max minAge1 minAge2)) users.
Proof.
  induction users as [|user rest IH]; [reflexivity|].
  cbn [filter].
  destruct (createUserFilter minAge2 user) eqn:E2; cbn [filter];
    [destruct (createUserFilter minAge1 user) eqn:E1|];
    destruct (createUserFilter (Z.max minAge1 minAge2) user) eqn:E;
    rewrite ?IH; try reflexivity; exfalso;
    unfold createUserFilter in *; rewrite Z.geb_leb in *;
    rewrite ?Z.leb_le, ?Z.leb_gt in *; lia.
Qed.
